(** * The form-intake endpoint of [main.py]

    A shallow embedding of the one request handler of the backend,
    [submit_form], together with the parts of Python, pydantic, FastAPI and
    SQLAlchemy/PostgreSQL it relies on:

    - Python values: [str] on integers, [str.split(sep, maxsplit)],
      [range], [enumerate], tuple unpacking, [getattr];
    - the relational schema declared by the ORM classes, with the
      constraints the declarations put on it (primary keys, the unique
      e-mail column, the foreign keys);
    - the session: [add] queues a transient object, [commit] flushes the
      queue inside one transaction and either makes all of it durable or
      none of it;
    - the handler itself, written in a state-and-exception monad whose
      state is the session. *)

From Stdlib Require Import ZArith String Ascii List Bool Lia Sorted.
From Stdlib Require Import DecimalString DecimalZ SpecFloat.
Import ListNotations.

Local Open Scope string_scope.
Local Open Scope list_scope.
Local Open Scope Z_scope.

(* ===================================================================== *)
(** * Python values *)
(* ===================================================================== *)

(** [str(n)] on an integer: decimal digits, a leading minus sign for a
    negative number, no leading zeros.  A Python that bounds the
    conversion between [int] and [str] (4300 digits unless configured
    otherwise) bounds it in both directions, so an integer that was read
    from the text of a request body is one that [str] converts: the
    function is total on the values the handler is given. *)
Definition str (n : Z) : string := NilZero.string_of_int (Z.to_int n).

(** [s.split(sep, maxsplit)] for a one-character separator.  At most
    [maxsplit] cuts are made, from the left; the rest of the string is the
    last element.  The result is never empty.  Strings are sequences of
    bytes here; the separator used by the handler is the space, which no
    multi-byte UTF-8 sequence contains, so cutting bytes and cutting code
    points agree. *)
Fixpoint split (sep : ascii) (maxsplit : nat) (s : string) : list string :=
  match s with
  | EmptyString => [EmptyString]
  | String c rest =>
      match maxsplit with
      | O => [s]
      | S fewer =>
          if Ascii.eqb c sep then EmptyString :: split sep fewer rest
          else match split sep maxsplit rest with
               | piece :: pieces => String c piece :: pieces
               | [] => [String c EmptyString]
               end
      end
  end.

(** [range(lo, hi)]. *)
Definition range (lo hi : Z) : list Z :=
  map (fun k => lo + Z.of_nat k) (seq 0 (Z.to_nat (hi - lo))).

(** [enumerate(l, start)]. *)
Fixpoint enumerate_from {A : Type} (start : Z) (l : list A) : list (Z * A) :=
  match l with
  | [] => []
  | x :: rest => (start, x) :: enumerate_from (start + 1) rest
  end.

Definition enumerate {A : Type} (l : list A) : list (Z * A) :=
  enumerate_from 0 l.

(** A calendar date (the [Date] column type), as a day number. *)
Definition Date : Type := Z.

(** The JSON values the endpoint answers with. *)
#[warnings="-register-all"] Inductive json : Type :=
| JString (s : string)
| JObject (members : list (string * json)).

(* ===================================================================== *)
(** * The schema *)
(* ===================================================================== *)

Module User.
Record t : Type := mk {
  user_id : Z;
  first_name : string;
  last_name : string;
  telephone_number : string;
  email : string;
  professional_status : string;
  industry : string;
  organization : string;
  job_level : string;
  department : string;
  location : string
}.
End User.

(** A [Float] column holds an IEEE 754 value. *)
Module Payment.
Record t : Type := mk {
  payment_id : Z;
  user_id : Z;
  payment_date : Date;
  payment_amount : spec_float;
  payment_status : string
}.
End Payment.

Module Diagnostic_Tool.
Record t : Type := mk {
  tool_id : Z;
  tool_name : string;
  tool_description : option string
}.
End Diagnostic_Tool.

Module User_Tool.
Record t : Type := mk {
  user_tool_id : Z;
  user_id : Z;
  tool_id : Z;
  start_date : Date;
  completion_date : option Date
}.
End User_Tool.

Module Question.
Record t : Type := mk {
  question_id : Z;
  tool_id : Z;
  question_text : string;
  question_type : string
}.
End Question.

Module Answer.
Record t : Type := mk {
  answer_id : Z;
  user_tool_id : Z;
  question_id : Z;
  answer_text : string
}.
End Answer.

(** The durable state: the six tables, and the last value handed out by
    the sequence behind each auto-incremented key the handler draws from. *)
Record Database : Type := mkDatabase {
  users : list User.t;
  payments : list Payment.t;
  diagnostic_tools : list Diagnostic_Tool.t;
  user_tools : list User_Tool.t;
  questions : list Question.t;
  answers : list Answer.t;
  users_user_id_seq : Z;
  user_tools_user_tool_id_seq : Z;
  answers_answer_id_seq : Z
}.

Inductive Table : Type :=
| t_users | t_user_tools | t_answers.

Inductive Violation : Type :=
| unique_violation
| foreign_key_violation.

(** What can go wrong while a request is served. *)
Inductive Exception : Type :=
| RequestValidationError
| ValueError
| AttributeError
| IntegrityError (kind : Violation) (table : Table)
| DBAPIError
| InvalidRequestError.

(** A transient ORM object: what the class constructor was called with.
    The key is absent until the object is flushed. *)
Inductive Transient : Type :=
| new_User (first_name last_name telephone_number email professional_status
            industry organization job_level department location : string)
| new_User_Tool (user_id tool_id : Z)
| new_Answer (user_tool_id question_id : Z) (answer_text : string).

(** ** One INSERT

    A text value with a NUL character is refused first, when the
    parameters of the statement are bound: PostgreSQL stores no NUL in a
    text column, and the driver's error reaches the handler as a
    [DBAPIError].  Then the key is the next value of the table's sequence.
    A key already in the table, or an e-mail already in [users], is a
    unique violation; a reference to a row that does not exist is a
    foreign-key violation.  [now] is what [datetime.now] answers when the
    column defaults of [user_tools] are evaluated. *)

(** The string has a NUL character in it. *)
Fixpoint has_nul (s : string) : bool :=
  match s with
  | EmptyString => false
  | String c rest => Ascii.eqb c Ascii.zero || has_nul rest
  end.

Definition any_nul (texts : list string) : bool := existsb has_nul texts.

Definition has_user (db : Database) (key : Z) : bool :=
  existsb (fun u => User.user_id u =? key) (users db).

Definition has_email (db : Database) (address : string) : bool :=
  existsb (fun u => String.eqb (User.email u) address) (users db).

Definition has_tool (db : Database) (key : Z) : bool :=
  existsb (fun d => Diagnostic_Tool.tool_id d =? key) (diagnostic_tools db).

Definition has_user_tool (db : Database) (key : Z) : bool :=
  existsb (fun x => User_Tool.user_tool_id x =? key) (user_tools db).

Definition has_question (db : Database) (key : Z) : bool :=
  existsb (fun q => Question.question_id q =? key) (questions db).

Definition has_answer (db : Database) (key : Z) : bool :=
  existsb (fun a => Answer.answer_id a =? key) (answers db).

Definition store_user (u : User.t) (db : Database) : Database :=
  mkDatabase (users db ++ [u]) (payments db) (diagnostic_tools db)
             (user_tools db) (questions db) (answers db)
             (User.user_id u) (user_tools_user_tool_id_seq db)
             (answers_answer_id_seq db).

Definition store_user_tool (x : User_Tool.t) (db : Database) : Database :=
  mkDatabase (users db) (payments db) (diagnostic_tools db)
             (user_tools db ++ [x]) (questions db) (answers db)
             (users_user_id_seq db) (User_Tool.user_tool_id x)
             (answers_answer_id_seq db).

Definition store_answer (a : Answer.t) (db : Database) : Database :=
  mkDatabase (users db) (payments db) (diagnostic_tools db)
             (user_tools db) (questions db) (answers db ++ [a])
             (users_user_id_seq db) (user_tools_user_tool_id_seq db)
             (Answer.answer_id a).

Definition insert (now : Date) (o : Transient) (db : Database)
  : Exception + (Z * Database) :=
  match o with
  | new_User first_name last_name telephone_number email professional_status
             industry organization job_level department location =>
      let key := users_user_id_seq db + 1 in
      if any_nul [first_name; last_name; telephone_number; email;
                  professional_status; industry; organization; job_level;
                  department; location]
      then inl DBAPIError
      else if has_user db key
      then inl (IntegrityError unique_violation t_users)
      else if has_email db email
      then inl (IntegrityError unique_violation t_users)
      else inr (key,
                store_user
                  (User.mk key first_name last_name telephone_number email
                           professional_status industry organization
                           job_level department location) db)
  | new_User_Tool user_id tool_id =>
      let key := user_tools_user_tool_id_seq db + 1 in
      if has_user_tool db key
      then inl (IntegrityError unique_violation t_user_tools)
      else if negb (has_user db user_id && has_tool db tool_id)
      then inl (IntegrityError foreign_key_violation t_user_tools)
      else inr (key,
                store_user_tool
                  (User_Tool.mk key user_id tool_id now (Some now)) db)
  | new_Answer user_tool_id question_id answer_text =>
      let key := answers_answer_id_seq db + 1 in
      if has_nul answer_text then inl DBAPIError
      else if has_answer db key
      then inl (IntegrityError unique_violation t_answers)
      else if negb (has_user_tool db user_tool_id
                    && has_question db question_id)
      then inl (IntegrityError foreign_key_violation t_answers)
      else inr (key,
                store_answer
                  (Answer.mk key user_tool_id question_id answer_text) db)
  end.

(** The flush: the queued objects are inserted in the order they were
    added; the first failure aborts the whole flush. *)
Fixpoint flush (now : Date) (objs : list Transient) (db : Database)
  : Exception + (list Z * Database) :=
  match objs with
  | [] => inr ([], db)
  | o :: rest =>
      match insert now o db with
      | inl e => inl e
      | inr (key, db1) =>
          match flush now rest db1 with
          | inl e => inl e
          | inr (keys, db2) => inr (key :: keys, db2)
          end
      end
  end.

(* ===================================================================== *)
(** * The session *)
(* ===================================================================== *)

(** [bind] is the database as of the last successful commit, [new] the
    objects added since, [clock] the date [datetime.now] reports. *)
Record Session : Type := mkSession {
  bind : Database;
  new : list Transient;
  clock : Date
}.

(** A computation in the handler: it reads and changes the session and
    either returns a value or raises.  The session survives a raise, so
    that what was committed before it stays committed. *)
Definition Handler (A : Type) : Type := Session -> (Exception + A) * Session.

Definition ret {A : Type} (a : A) : Handler A := fun s => (inr a, s).

Definition raise {A : Type} (e : Exception) : Handler A :=
  fun s => (inl e, s).

Definition then_ {A B : Type} (m : Handler A) (k : A -> Handler B)
  : Handler B :=
  fun s =>
    match m s with
    | (inl e, s1) => (inl e, s1)
    | (inr a, s1) => k a s1
    end.

Declare Scope handler_scope.
Delimit Scope handler_scope with handler.
Notation "x <- m ;; k" := (then_ m (fun x => k))
  (at level 61, m at next level, right associativity) : handler_scope.
Notation "m ;; k" := (then_ m (fun _ => k))
  (at level 61, right associativity) : handler_scope.
Local Open Scope handler_scope.

(** [for x in l: body(x)]. *)
Fixpoint for_each {A : Type} (l : list A) (body : A -> Handler unit)
  : Handler unit :=
  match l with
  | [] => ret tt
  | x :: rest => body x ;; for_each rest body
  end.

(** [db.add(o)]. *)
Definition add (o : Transient) : Handler unit :=
  fun s => (inr tt, mkSession (bind s) (new s ++ [o]) (clock s)).

(** [await db.commit()]: flush in one transaction.  When an INSERT fails
    the transaction is rolled back: the database is the one of the last
    commit.  The keys given to the flushed objects are returned in the
    order of the objects.

    The rollback restores the sequences with the rows.  PostgreSQL does
    not hand a sequence value out twice, so there the keys tried by a
    failed flush are lost; how many are tried depends on how the flush
    batches its INSERTs.  The statements on failed requests are therefore
    about the rows of the tables ([same_rows]), not about the sequences. *)
Definition commit : Handler (list Z) :=
  fun s =>
    match flush (clock s) (new s) (bind s) with
    | inl e => (inl e, mkSession (bind s) [] (clock s))
    | inr (keys, db) => (inr keys, mkSession db [] (clock s))
    end.

(** [await db.refresh(o)] for the object a one-object commit has just
    flushed: the row is read back by its key. *)
Definition refresh_User (keys : list Z) : Handler User.t :=
  fun s =>
    match keys with
    | [] => (inl InvalidRequestError, s)
    | key :: _ =>
        match find (fun u => User.user_id u =? key) (users (bind s)) with
        | Some u => (inr u, s)
        | None => (inl InvalidRequestError, s)
        end
    end.

Definition refresh_User_Tool (keys : list Z) : Handler User_Tool.t :=
  fun s =>
    match keys with
    | [] => (inl InvalidRequestError, s)
    | key :: _ =>
        match find (fun x => User_Tool.user_tool_id x =? key)
                   (user_tools (bind s)) with
        | Some x => (inr x, s)
        | None => (inl InvalidRequestError, s)
        end
    end.

(* ===================================================================== *)
(** * The request model *)
(* ===================================================================== *)

(** The body of the request, field for field as [FormData] declares it.
    The field types are the validation: a [str] field takes any string, a
    [List[int]] field any list of integers. *)
Record FormData : Type := mkFormData {
  fullName : string;
  telephoneNumber : string;
  emailAddress : string;
  professionalStatus : string;
  industry : string;
  organisation : string;
  jobLevel : string;
  department : string;
  location : string;
  step2Data : list Z;
  step3Data : list Z;
  step4Data : list Z;
  step5Data : list Z;
  step6Data : list Z;
  step7Data : list Z;
  step8Data : list Z
}.

(** [EmailStr] is the one field type that looks at the contents.  Its check
    belongs to the e-mail validation package, not to this program, and is a
    parameter [EmailStr] of the model: it answers the (normalised) address,
    or nothing when the syntax is refused.  The body is taken with every
    field present and of its type, as the record [FormData] has it: the
    refusal of a body with a field missing or of another type is not part
    of the model. *)
Definition FormData_validate (EmailStr : string -> option string)
  (body : FormData) : Exception + FormData :=
  match EmailStr (emailAddress body) with
  | None => inl RequestValidationError
  | Some address =>
      inr (mkFormData (fullName body) (telephoneNumber body) address
             (professionalStatus body) (industry body) (organisation body)
             (jobLevel body) (department body) (location body)
             (step2Data body) (step3Data body) (step4Data body)
             (step5Data body) (step6Data body) (step7Data body)
             (step8Data body))
  end.

(** [getattr(form_data, name)] for the names the handler asks for, the
    seven step arrays; any other name is answered as a missing
    attribute. *)
Definition getattr (form_data : FormData) (name : string)
  : Handler (list Z) :=
  if String.eqb name "step2Data" then ret (step2Data form_data)
  else if String.eqb name "step3Data" then ret (step3Data form_data)
  else if String.eqb name "step4Data" then ret (step4Data form_data)
  else if String.eqb name "step5Data" then ret (step5Data form_data)
  else if String.eqb name "step6Data" then ret (step6Data form_data)
  else if String.eqb name "step7Data" then ret (step7Data form_data)
  else if String.eqb name "step8Data" then ret (step8Data form_data)
  else raise AttributeError.

(** [a, b = pieces]. *)
Definition unpack2 (pieces : list string) : Handler (string * string) :=
  match pieces with
  | [a; b] => ret (a, b)
  | _ => raise ValueError
  end.

(* ===================================================================== *)
(** * The handler *)
(* ===================================================================== *)

Definition success_message : json :=
  JObject [("message", JString "Form submitted successfully")].

Definition submit_form (form_data : FormData) : Handler json :=
  names <- unpack2 (split " " 1 (fullName form_data)) ;;
  let first_name := fst names in
  let last_name := snd names in
  let user :=
    new_User first_name last_name
             (telephoneNumber form_data)
             (emailAddress form_data)
             (professionalStatus form_data)
             (industry form_data)
             (organisation form_data)
             (jobLevel form_data)
             (department form_data)
             (location form_data) in
  add user ;;
  keys <- commit ;;
  user <- refresh_User keys ;;
  let user_tool := new_User_Tool (User.user_id user) 1 in
  add user_tool ;;
  keys <- commit ;;
  user_tool <- refresh_User_Tool keys ;;
  for_each (range 2 9) (fun step =>
    step_data <- getattr form_data ("step" ++ str step ++ "Data") ;;
    for_each (enumerate step_data) (fun item =>
      let index := fst item in
      let answer_value := snd item in
      let answer :=
        new_Answer (User_Tool.user_tool_id user_tool)
                   ((step - 2) * 9 + index + 1)
                   (str answer_value) in
      add answer)) ;;
  commit ;;
  ret success_message.

(** [get_db]: a fresh session on the database. *)
Definition get_db (now : Date) (db : Database) : Session :=
  mkSession db [] now.

(** One call of the handler on a validated form: the answer or the
    exception, and the database the request leaves behind. *)
Definition run_submit_form (form_data : FormData) (now : Date)
  (db : Database) : (Exception + json) * Database :=
  let (outcome, s) := submit_form form_data (get_db now db) in
  (outcome, bind s).

(** [POST /submit-form/]: the body is validated against [FormData] first;
    the handler runs only on a body that passes. *)
Definition post_submit_form (EmailStr : string -> option string)
  (body : FormData) (now : Date) (db : Database)
  : (Exception + json) * Database :=
  match FormData_validate EmailStr body with
  | inl e => (inl e, db)
  | inr form_data => run_submit_form form_data now db
  end.

(** The status line of the response: a body that fails validation is
    answered 422, an exception that escapes the handler 500. *)
Definition status_code (outcome : Exception + json) : Z :=
  match outcome with
  | inr _ => 200
  | inl RequestValidationError => 422
  | inl _ => 500
  end.

(** How many times a character occurs in a string. *)
Fixpoint count_char (c : ascii) (s : string) : nat :=
  match s with
  | EmptyString => O
  | String d rest => (if Ascii.eqb d c then 1 else 0) + count_char c rest
  end.

(** An e-mail check to run the model with: one [@], something before it,
    and a dot somewhere after it; nothing is normalised.  It stands in for
    the check of the package in the sample requests below, whose address
    is an ordinary one. *)
Definition plain_EmailStr (address : string) : option string :=
  match split "@" 1 address with
  | [local_part; domain] =>
      if (negb (String.eqb local_part EmptyString)
          && Nat.eqb (count_char "@" domain) 0
          && negb (Nat.eqb (count_char "." domain) 0))%bool
      then Some address else None
  | _ => None
  end.

(* ===================================================================== *)
(** * What the statements are written with *)
(* ===================================================================== *)


(** A text field of the form holds a NUL character. *)
Definition nul_in_fields (form_data : FormData) : bool :=
  any_nul [fullName form_data; telephoneNumber form_data;
           emailAddress form_data; professionalStatus form_data;
           industry form_data; organisation form_data; jobLevel form_data;
           department form_data; location form_data].

(** The text of a queued answer holds no NUL character. *)
Definition answer_text_ok (o : Transient) : bool :=
  match o with
  | new_Answer _ _ answer_text => negb (has_nul answer_text)
  | _ => true
  end.

(** [contains c s]: the character occurs in the string. *)
Fixpoint contains (c : ascii) (s : string) : bool :=
  match s with
  | EmptyString => false
  | String d rest => Ascii.eqb d c || contains c rest
  end.

(** The step array of a step, by number. *)
Definition stepData (form_data : FormData) (step : Z) : list Z :=
  match step with
  | 2 => step2Data form_data
  | 3 => step3Data form_data
  | 4 => step4Data form_data
  | 5 => step5Data form_data
  | 6 => step6Data form_data
  | 7 => step7Data form_data
  | 8 => step8Data form_data
  | _ => []
  end.

(** All submitted values, step after step. *)
Definition submitted_values (form_data : FormData) : list Z :=
  flat_map (stepData form_data) (range 2 9).

(** Where the value at [index] of [step] stands among all the values. *)
Definition position (form_data : FormData) (step : Z) (index : nat) : nat :=
  (length (flat_map (stepData form_data) (range 2 step)) + index)%nat.

(** The objects the loop queues for one step, and for all of them. *)
Definition step_answers (user_tool_id step : Z) (step_data : list Z)
  : list Transient :=
  map (fun item =>
         new_Answer user_tool_id ((step - 2) * 9 + fst item + 1)
                    (str (snd item)))
      (enumerate step_data).

Definition all_answers (user_tool_id : Z) (form_data : FormData)
  : list Transient :=
  flat_map (fun step => step_answers user_tool_id step
                          (stepData form_data step))
           (range 2 9).

(** The rows a flush of answers writes, the first one keyed [last + 1]. *)
Fixpoint answer_rows (last : Z) (objs : list Transient) : list Answer.t :=
  match objs with
  | [] => []
  | new_Answer user_tool_id question_id answer_text :: rest =>
      Answer.mk (last + 1) user_tool_id question_id answer_text
      :: answer_rows (last + 1) rest
  | _ :: rest => answer_rows last rest
  end.

Definition is_answer (o : Transient) : bool :=
  match o with
  | new_Answer _ _ _ => true
  | _ => false
  end.

(** The foreign keys of a queued answer resolve in [db]. *)
Definition answer_refs_ok (db : Database) (o : Transient) : bool :=
  match o with
  | new_Answer user_tool_id question_id _ =>
      has_user_tool db user_tool_id && has_question db question_id
  | _ => true
  end.

(** Every key in the three tables the handler writes to was drawn from the
    table's sequence. *)
Definition sequences_ahead (db : Database) : bool :=
  forallb (fun u => User.user_id u <=? users_user_id_seq db) (users db)
  && forallb (fun x => User_Tool.user_tool_id x
                       <=? user_tools_user_tool_id_seq db) (user_tools db)
  && forallb (fun a => Answer.answer_id a <=? answers_answer_id_seq db)
             (answers db).

(** The question a value of a step is filed under is seeded, for every
    value of the form. *)
Definition questions_seeded (db : Database) (form_data : FormData) : bool :=
  forallb (fun step =>
             forallb (fun item =>
                        has_question db ((step - 2) * 9 + fst item + 1))
                     (enumerate (stepData form_data step)))
          (range 2 9).

(** The body of the outer loop of the handler. *)
Definition answer_loop_body (form_data : FormData) (user_tool_id step : Z)
  : Handler unit :=
  step_data <- getattr form_data ("step" ++ str step ++ "Data") ;;
  for_each (enumerate step_data) (fun item =>
    let index := fst item in
    let answer_value := snd item in
    let answer :=
      new_Answer user_tool_id ((step - 2) * 9 + index + 1)
                 (str answer_value) in
    add answer).

(** The [User] object the handler builds from the two names and the form. *)
Definition user_of (first_name last_name : string) (form_data : FormData)
  : Transient :=
  new_User first_name last_name
           (telephoneNumber form_data)
           (emailAddress form_data)
           (professionalStatus form_data)
           (industry form_data)
           (organisation form_data)
           (jobLevel form_data)
           (department form_data)
           (location form_data).

(** The row a flushed [User] object becomes under a key. *)
Definition user_row (key : Z) (first_name last_name : string)
  (form_data : FormData) : User.t :=
  User.mk key first_name last_name
          (telephoneNumber form_data)
          (emailAddress form_data)
          (professionalStatus form_data)
          (industry form_data)
          (organisation form_data)
          (jobLevel form_data)
          (department form_data)
          (location form_data).

(** [db] with [rows] appended to [answers], the sequence left at [last]. *)
Definition extend_answers (rows : list Answer.t) (last : Z) (db : Database)
  : Database :=
  mkDatabase (users db) (payments db) (diagnostic_tools db)
             (user_tools db) (questions db) (answers db ++ rows)
             (users_user_id_seq db) (user_tools_user_tool_id_seq db) last.

(** The handler as three commits in a row, without the session: the name
    is cut, the user is inserted, the user-tool link is inserted, all the
    answers are flushed together.  Each failure leaves the database of the
    commit before it.  [run_submit_form_phases] below proves that this is
    what [submit_form] computes. *)
Definition three_phases (form_data : FormData) (now : Date) (db : Database)
  : (Exception + json) * Database :=
  match split " " 1 (fullName form_data) with
  | [first_name; last_name] =>
      match insert now (user_of first_name last_name form_data) db with
      | inl e => (inl e, db)
      | inr (user_id, db1) =>
          match insert now (new_User_Tool user_id 1) db1 with
          | inl e => (inl e, db1)
          | inr (user_tool_id, db2) =>
              match flush now (all_answers user_tool_id form_data) db2 with
              | inl e => (inl e, db2)
              | inr (_, db3) => (inr success_message, db3)
              end
          end
      end
  | _ => (inl ValueError, db)
  end.

(** The rows an accepted submission adds, and the database it leaves. *)
Definition new_user (form_data : FormData) (db : Database)
  (first_name last_name : string) : User.t :=
  user_row (users_user_id_seq db + 1) first_name last_name form_data.

Definition new_user_tool (now : Date) (db : Database) : User_Tool.t :=
  User_Tool.mk (user_tools_user_tool_id_seq db + 1)
               (users_user_id_seq db + 1) 1 now (Some now).

Definition new_answers (form_data : FormData) (db : Database)
  : list Answer.t :=
  answer_rows (answers_answer_id_seq db)
              (all_answers (user_tools_user_tool_id_seq db + 1) form_data).

Definition after_submission (form_data : FormData) (now : Date)
  (db : Database) (first_name last_name : string) : Database :=
  mkDatabase (users db ++ [new_user form_data db first_name last_name])
             (payments db)
             (diagnostic_tools db)
             (user_tools db ++ [new_user_tool now db])
             (questions db)
             (answers db ++ new_answers form_data db)
             (users_user_id_seq db + 1)
             (user_tools_user_tool_id_seq db + 1)
             (answers_answer_id_seq db
              + Z.of_nat (length (submitted_values form_data))).

(* ===================================================================== *)
(** * Sample requests and databases *)
(* ===================================================================== *)

(** A database as the bootstrap leaves it: tool 1 and its first [n]
    questions seeded, no users yet. *)
Definition seeded (n : Z) : Database :=
  mkDatabase [] []
    [Diagnostic_Tool.mk 1 "Mindset diagnostic" None]
    []
    (map (fun k => Question.mk k 1 "How often?" "scale") (range 1 (n + 1)))
    [] 0 0 0.

(** The form of the end-to-end scenario: Jane Doe, two answers in step 2. *)
Definition jane_doe : FormData :=
  mkFormData "Jane Doe" "0700 000 000" "jane@diagnostics.org" "Employed"
             "Health" "Clinic" "Senior" "Research" "Nairobi"
             [1; 2] [] [] [] [] [] [].

Definition with_fullName (name : string) (form_data : FormData)
  : FormData :=
  mkFormData name (telephoneNumber form_data) (emailAddress form_data)
             (professionalStatus form_data) (industry form_data)
             (organisation form_data) (jobLevel form_data)
             (department form_data) (location form_data)
             (step2Data form_data) (step3Data form_data)
             (step4Data form_data) (step5Data form_data)
             (step6Data form_data) (step7Data form_data)
             (step8Data form_data).

Definition with_steps (s2 s3 : list Z) (form_data : FormData) : FormData :=
  mkFormData (fullName form_data) (telephoneNumber form_data)
             (emailAddress form_data)
             (professionalStatus form_data) (industry form_data)
             (organisation form_data) (jobLevel form_data)
             (department form_data) (location form_data)
             s2 s3
             (step4Data form_data) (step5Data form_data)
             (step6Data form_data) (step7Data form_data)
             (step8Data form_data).

(** Only one name. *)
Definition jane : FormData := with_fullName "Jane" jane_doe.


(** A leading space, and more than one space. *)
Definition space_jane_doe : FormData := with_fullName " Jane Doe" jane_doe.
Definition jane_van_der_doe : FormData :=
  with_fullName "Jane van der Doe" jane_doe.

(** No telephone number; and none of the seven profile fields. *)
Definition jane_doe_no_phone : FormData :=
  mkFormData "Jane Doe" EmptyString "jane@diagnostics.org" "Employed"
             "Health" "Clinic" "Senior" "Research" "Nairobi"
             [1; 2] [] [] [] [] [] [].

Definition jane_doe_blank : FormData :=
  mkFormData "Jane Doe" EmptyString "jane@diagnostics.org" EmptyString
             EmptyString EmptyString EmptyString EmptyString EmptyString
             [1; 2] [] [] [] [] [] [].

(** Ten answers in step 2 and one in step 3. *)
Definition jane_doe_ten : FormData :=
  with_steps [1; 2; 3; 4; 5; 1; 2; 3; 4; 5] [3] jane_doe.

(** Three answers in step 2. *)
Definition jane_doe_three : FormData := with_steps [1; 2; 3] [] jane_doe.

(** The database once [jane_doe] has been taken in. *)
Definition with_jane_doe : Database :=
  snd (run_submit_form jane_doe 19000 (seeded 63)).

(* ===================================================================== *)
(** * The constraints of the schema, as properties of a database *)
(* ===================================================================== *)

(** [sep.join(pieces)]. *)
Fixpoint join (sep : ascii) (pieces : list string) : string :=
  match pieces with
  | [] => EmptyString
  | [piece] => piece
  | piece :: rest => (piece ++ String sep (join sep rest))%string
  end.

(** Every foreign key of every row resolves: the four [ForeignKey]
    columns of [user_tools] and [answers], and those of [payments] and
    [questions]. *)
Definition references_resolve (db : Database) : bool :=
  forallb (fun p => has_user db (Payment.user_id p)) (payments db)
  && forallb (fun x => has_user db (User_Tool.user_id x)
                       && has_tool db (User_Tool.tool_id x))
             (user_tools db)
  && forallb (fun q => has_tool db (Question.tool_id q)) (questions db)
  && forallb (fun a => has_user_tool db (Answer.user_tool_id a)
                       && has_question db (Answer.question_id a))
             (answers db).

(** No two rows of a table the handler writes to share a primary key, and
    no two users share an e-mail. *)
Definition keys_unique (db : Database) : Prop :=
  NoDup (map User.user_id (users db))
  /\ NoDup (map User.email (users db))
  /\ NoDup (map User_Tool.user_tool_id (user_tools db))
  /\ NoDup (map Answer.answer_id (answers db)).

(** No step array has more than nine values. *)
Definition at_most_nine (form_data : FormData) : bool :=
  forallb (fun step => (length (stepData form_data step) <=? 9)%nat)
          (range 2 9).


Definition john_roe : FormData :=
  mkFormData "John Roe" "0711 111 111" "john@diagnostics.org" "Student"
             "Education" "College" "Junior" "Library" "Kisumu"
             [5; 4; 3] [2] [] [] [] [] [1].

(* ===================================================================== *)
(** * Python values: lemmas *)
(* ===================================================================== *)

(** Split a goal into its conjuncts, and no further. *)
Ltac conjuncts := repeat match goal with |- _ /\ _ => split end.

(** Settle a closed goal by running the model. *)
Ltac run := vm_compute; reflexivity.

Section Split.

Variable sep : ascii.

Lemma split_0 (s : string) : split sep 0 s = [s].
Proof. destruct s; reflexivity. Qed.

Lemma split_without (s : string) :
  contains sep s = false -> split sep 1 s = [s].
Proof.
  induction s as [|c rest IH]; simpl; intros H; [reflexivity|].
  apply orb_false_iff in H. destruct H as [Hc Hrest].
  rewrite Hc, (IH Hrest). reflexivity.
Qed.

Lemma split_at_first (a b : string) :
  contains sep a = false ->
  split sep 1 (a ++ String sep b) = [a; b].
Proof.
  induction a as [|c rest IH]; simpl; intros H.
  - rewrite Ascii.eqb_refl, split_0. reflexivity.
  - apply orb_false_iff in H. destruct H as [Hc Hrest].
    rewrite Hc, (IH Hrest). reflexivity.
Qed.

Lemma contains_cut (s : string) :
  contains sep s = true ->
  exists a b, s = (a ++ String sep b)%string /\ contains sep a = false.
Proof.
  induction s as [|c rest IH]; simpl; intros H; [discriminate|].
  destruct (Ascii.eqb c sep) eqn:Hc.
  - apply Ascii.eqb_eq in Hc. subst c.
    exists EmptyString, rest. split; reflexivity.
  - destruct (IH H) as (a & b & -> & Ha).
    exists (String c a), b. simpl. rewrite Hc, Ha. split; reflexivity.
Qed.

Lemma cut_unique (a b a' b' : string) :
  contains sep a = false -> contains sep a' = false ->
  (a ++ String sep b)%string = (a' ++ String sep b')%string ->
  a = a' /\ b = b'.
Proof.
  intros Ha Ha' E.
  pose proof (split_at_first a b Ha) as S1.
  pose proof (split_at_first a' b' Ha') as S2.
  rewrite E in S1. rewrite S1 in S2. inversion S2. split; reflexivity.
Qed.

Lemma split_two_pieces (s a b : string) :
  split sep 1 s = [a; b] ->
  s = (a ++ String sep b)%string /\ contains sep a = false.
Proof.
  intros H. destruct (contains sep s) eqn:Hs.
  - destruct (contains_cut s Hs) as (a0 & b0 & -> & Ha0).
    rewrite (split_at_first a0 b0 Ha0) in H. inversion H; subst.
    split; [reflexivity|assumption].
  - rewrite (split_without s Hs) in H. discriminate.
Qed.

End Split.

Lemma enumerate_from_length {A : Type} (l : list A) (start : Z) :
  length (enumerate_from start l) = length l.
Proof.
  revert start. induction l as [|x rest IH]; intros start; simpl;
    [reflexivity | now rewrite IH].
Qed.

Lemma enumerate_from_nth {A : Type} (l : list A) (start : Z) (n : nat)
  (x : A) :
  nth_error l n = Some x ->
  nth_error (enumerate_from start l) n = Some (start + Z.of_nat n, x).
Proof.
  revert start n. induction l as [|y rest IH]; intros start n H.
  - destruct n; discriminate.
  - destruct n as [|n]; simpl in *.
    + inversion H. now rewrite Z.add_0_r.
    + rewrite (IH (start + 1) n H). do 2 f_equal. lia.
Qed.

Lemma has_nul_app (a b : string) :
  has_nul (a ++ b) = has_nul a || has_nul b.
Proof.
  induction a as [|c rest IH]; simpl; [reflexivity|].
  now rewrite IH, orb_assoc.
Qed.

(** The two names hold a NUL exactly when the name they are cut from
    does. *)
Lemma has_nul_cut (a b : string) :
  has_nul (a ++ String " " b) = has_nul a || has_nul b.
Proof. now rewrite has_nul_app. Qed.

Lemma digits_no_nul (d : Decimal.uint) :
  has_nul (NilEmpty.string_of_uint d) = false.
Proof. induction d; simpl; assumption || reflexivity. Qed.

(** The decimal notation of a number holds digits and a sign. *)
Lemma str_no_nul (n : Z) : has_nul (str n) = false.
Proof.
  unfold str. destruct (Z.to_int n) as [d|d]; simpl.
  - unfold NilZero.string_of_uint.
    destruct d; try reflexivity; apply (digits_no_nul (_ d)).
  - unfold NilZero.string_of_uint.
    destruct d; try reflexivity; apply (digits_no_nul (_ d)).
Qed.

(** [str] is the decimal notation: reading it back gives the number. *)
Lemma str_reads_back (n : Z) :
  option_map Z.of_int (NilZero.int_of_string (str n)) = Some n.
Proof.
  unfold str.
  destruct (Z.to_int n) eqn:E.
  - destruct (Decimal.uint_eq_dec d Decimal.Nil) as [->|Hd].
    + rewrite NilZero.isi_posnil. simpl.
      rewrite <- (DecimalZ.of_to n), E. reflexivity.
    + rewrite NilZero.isi by congruence. simpl.
      rewrite <- (DecimalZ.of_to n), E. reflexivity.
  - destruct (Decimal.uint_eq_dec d Decimal.Nil) as [->|Hd].
    + rewrite NilZero.isi_negnil. simpl.
      rewrite <- (DecimalZ.of_to n), E. reflexivity.
    + rewrite NilZero.isi by congruence. simpl.
      rewrite <- (DecimalZ.of_to n), E. reflexivity.
Qed.

(* ===================================================================== *)
(** * The session: lemmas *)
(* ===================================================================== *)

Lemma session_eta (s : Session) :
  mkSession (bind s) (new s) (clock s) = s.
Proof. destruct s; reflexivity. Qed.

Lemma for_each_add {A : Type} (f : A -> Transient) (l : list A)
  (s : Session) :
  for_each l (fun x => add (f x)) s
  = (inr tt, mkSession (bind s) (new s ++ map f l) (clock s)).
Proof.
  revert s. induction l as [|x rest IH]; intros s; simpl.
  - unfold ret. now rewrite app_nil_r, session_eta.
  - unfold then_, add at 1. rewrite IH. simpl.
    now rewrite <- app_assoc.
Qed.

Lemma getattr_step (form_data : FormData) (step : Z) :
  In step (range 2 9) ->
  getattr form_data ("step" ++ str step ++ "Data")
  = ret (stepData form_data step).
Proof.
  unfold range. simpl.
  intros [<-|[<-|[<-|[<-|[<-|[<-|[<-|[]]]]]]]]; reflexivity.
Qed.

Lemma answer_loop_step (form_data : FormData) (user_tool_id step : Z)
  (s : Session) :
  In step (range 2 9) ->
  answer_loop_body form_data user_tool_id step s
  = (inr tt,
     mkSession (bind s)
       (new s ++ step_answers user_tool_id step (stepData form_data step))
       (clock s)).
Proof.
  intros H. unfold answer_loop_body, then_.
  rewrite (getattr_step form_data step H). unfold ret.
  apply (for_each_add
           (fun item => new_Answer user_tool_id
                          ((step - 2) * 9 + fst item + 1)
                          (str (snd item)))).
Qed.

Lemma answer_loop_steps (form_data : FormData) (user_tool_id : Z)
  (steps : list Z) (s : Session) :
  incl steps (range 2 9) ->
  for_each steps (answer_loop_body form_data user_tool_id) s
  = (inr tt,
     mkSession (bind s)
       (new s ++ flat_map (fun step => step_answers user_tool_id step
                                         (stepData form_data step)) steps)
       (clock s)).
Proof.
  revert s. induction steps as [|step rest IH]; intros s Hin; simpl.
  - unfold ret. now rewrite app_nil_r, session_eta.
  - unfold then_.
    rewrite answer_loop_step by (apply Hin; now left).
    rewrite IH by (intros x Hx; apply Hin; now right).
    simpl. now rewrite <- app_assoc.
Qed.

Lemma answer_loop (form_data : FormData) (user_tool_id : Z) (s : Session) :
  for_each (range 2 9) (answer_loop_body form_data user_tool_id) s
  = (inr tt,
     mkSession (bind s) (new s ++ all_answers user_tool_id form_data)
               (clock s)).
Proof. apply answer_loop_steps, incl_refl. Qed.

(* ===================================================================== *)
(** * The database: lemmas *)
(* ===================================================================== *)

Section Keys.

Context {R : Type} (key_of : R -> Z).

Lemma key_beyond_sequence (rows : list R) (last : Z) :
  forallb (fun r => key_of r <=? last) rows = true ->
  existsb (fun r => key_of r =? last + 1) rows = false.
Proof.
  induction rows as [|r rest IH]; simpl; intros H; [reflexivity|].
  apply andb_true_iff in H. destruct H as [Hr Hrest].
  rewrite (IH Hrest), orb_false_r.
  apply Z.leb_le in Hr. apply Z.eqb_neq. lia.
Qed.

Lemma sequence_step (rows : list R) (r : R) (last : Z) :
  forallb (fun x => key_of x <=? last) rows = true ->
  key_of r = last + 1 ->
  forallb (fun x => key_of x <=? last + 1) (rows ++ [r]) = true.
Proof.
  intros H Hr. rewrite forallb_app. apply andb_true_iff. split.
  - rewrite forallb_forall in *. intros x Hx.
    specialize (H x Hx). apply Z.leb_le in H. apply Z.leb_le. lia.
  - simpl. rewrite Hr, Z.leb_refl. reflexivity.
Qed.

Lemma find_appended (rows : list R) (r : R) (key : Z) :
  existsb (fun x => key_of x =? key) rows = false ->
  key_of r = key ->
  find (fun x => key_of x =? key) (rows ++ [r]) = Some r.
Proof.
  induction rows as [|x rest IH]; simpl; intros H Hr.
  - now rewrite Hr, Z.eqb_refl.
  - apply orb_false_iff in H. destruct H as [Hx Hrest].
    rewrite Hx. now apply IH.
Qed.

End Keys.

Lemma insert_user_inv (now : Date) (first_name last_name : string)
  (form_data : FormData) (db db1 : Database) (key : Z) :
  insert now (user_of first_name last_name form_data) db = inr (key, db1) ->
  key = users_user_id_seq db + 1
  /\ has_user db key = false
  /\ has_email db (emailAddress form_data) = false
  /\ db1 = store_user (user_row key first_name last_name form_data) db.
Proof.
  unfold user_of, insert.
  destruct (any_nul _); [discriminate|].
  destruct (has_user db (users_user_id_seq db + 1)) eqn:Hk; [discriminate|].
  destruct (has_email db (emailAddress form_data)) eqn:He; [discriminate|].
  intros H. inversion H; subst. repeat split; assumption.
Qed.

Lemma insert_user_tool_inv (now : Date) (user_id tool_id : Z)
  (db db2 : Database) (key : Z) :
  insert now (new_User_Tool user_id tool_id) db = inr (key, db2) ->
  key = user_tools_user_tool_id_seq db + 1
  /\ has_user_tool db key = false
  /\ has_user db user_id = true
  /\ has_tool db tool_id = true
  /\ db2 = store_user_tool
             (User_Tool.mk key user_id tool_id now (Some now)) db.
Proof.
  unfold insert.
  destruct (has_user_tool db (user_tools_user_tool_id_seq db + 1)) eqn:Hk;
    [discriminate|].
  destruct (has_user db user_id) eqn:Hu; simpl; [|discriminate].
  destruct (has_tool db tool_id) eqn:Ht; simpl; [|discriminate].
  intros H. inversion H; subst. repeat split; assumption.
Qed.

Lemma extend_answers_nothing (db : Database) :
  extend_answers [] (answers_answer_id_seq db) db = db.
Proof.
  destruct db; unfold extend_answers; simpl. now rewrite app_nil_r.
Qed.

Lemma extend_answers_store (a : Answer.t) (rows : list Answer.t) (last : Z)
  (db : Database) :
  extend_answers rows last (store_answer a db)
  = extend_answers (a :: rows) last db.
Proof.
  unfold extend_answers, store_answer; simpl. now rewrite <- app_assoc.
Qed.

(** A flush of answers that goes through appends exactly the queued rows,
    keyed from the sequence on, and touches nothing else. *)
Lemma flush_answers_inv (now : Date) (objs : list Transient)
  (db db' : Database) (keys : list Z) :
  forallb is_answer objs = true ->
  flush now objs db = inr (keys, db') ->
  db' = extend_answers (answer_rows (answers_answer_id_seq db) objs)
          (answers_answer_id_seq db + Z.of_nat (length objs)) db.
Proof.
  revert db keys. induction objs as [|o rest IH]; intros db keys Hall H.
  - simpl in H. inversion H; subst.
    simpl. now rewrite Z.add_0_r, extend_answers_nothing.
  - simpl in Hall. apply andb_true_iff in Hall. destruct Hall as [Ho Hrest].
    destruct o as [| |user_tool_id question_id answer_text];
      try discriminate.
    simpl in H.
    destruct (has_nul answer_text); [discriminate|].
    destruct (has_answer db (answers_answer_id_seq db + 1)); [discriminate|].
    destruct (negb _); [discriminate|].
    destruct (flush now rest _) as [e|[keys1 db1]] eqn:Hrec; [discriminate|].
    inversion H; subst.
    rewrite (IH _ _ Hrest Hrec). simpl answers_answer_id_seq.
    rewrite extend_answers_store. simpl length. simpl answer_rows.
    f_equal. lia.
Qed.


(** A failed flush of answers whose texts hold no NUL fails on a
    constraint of [answers]. *)
Lemma flush_answers_error (now : Date) (objs : list Transient)
  (db : Database) (e : Exception) :
  forallb is_answer objs = true ->
  forallb answer_text_ok objs = true ->
  flush now objs db = inl e ->
  exists kind, e = IntegrityError kind t_answers.
Proof.
  revert db. induction objs as [|o rest IH]; intros db Hall Htexts H.
  - discriminate.
  - simpl in Hall. apply andb_true_iff in Hall. destruct Hall as [Ho Hrest].
    simpl in Htexts. apply andb_true_iff in Htexts.
    destruct Htexts as [Htext Htexts].
    destruct o as [| |user_tool_id question_id answer_text];
      try discriminate.
    simpl in Htext. apply negb_true_iff in Htext.
    simpl in H. rewrite Htext in H.
    destruct (has_answer db (answers_answer_id_seq db + 1)).
    { inversion H. now eexists. }
    destruct (negb _).
    { inversion H. now eexists. }
    destruct (flush now rest _) as [e1|[keys1 db1]] eqn:Hrec;
      [|discriminate].
    inversion H; subst. exact (IH _ Hrest Htexts Hrec).
Qed.

(* ===================================================================== *)
(** * The queued answers: lemmas *)
(* ===================================================================== *)

Lemma range_cut (step : Z) :
  2 <= step <= 8 ->
  range 2 9 = range 2 step ++ step :: range (step + 1) 9.
Proof.
  intros H.
  assert (step = 2 \/ step = 3 \/ step = 4 \/ step = 5 \/ step = 6
          \/ step = 7 \/ step = 8) as C by lia.
  destruct C as [->|[->|[->|[->|[->|[->| ->]]]]]]; reflexivity.
Qed.

Lemma step_answers_length (user_tool_id step : Z) (step_data : list Z) :
  length (step_answers user_tool_id step step_data) = length step_data.
Proof.
  unfold step_answers, enumerate.
  now rewrite length_map, enumerate_from_length.
Qed.

Lemma step_answers_nth (user_tool_id step : Z) (step_data : list Z)
  (index : nat) (value : Z) :
  nth_error step_data index = Some value ->
  nth_error (step_answers user_tool_id step step_data) index
  = Some (new_Answer user_tool_id ((step - 2) * 9 + Z.of_nat index + 1)
                     (str value)).
Proof.
  intros H. unfold step_answers, enumerate.
  rewrite nth_error_map, (enumerate_from_nth _ 0 _ _ H). reflexivity.
Qed.

Lemma step_answers_are_answers (user_tool_id step : Z)
  (step_data : list Z) :
  forallb is_answer (step_answers user_tool_id step step_data) = true.
Proof.
  unfold step_answers. apply forallb_forall. intros o Ho.
  apply in_map_iff in Ho. destruct Ho as (item & <- & _). reflexivity.
Qed.

Section FlatMap.

Context {A B C : Type} (F : A -> list B) (G : A -> list C).
Hypothesis same_length : forall x, length (F x) = length (G x).

Lemma flat_map_same_length (l : list A) :
  length (flat_map F l) = length (flat_map G l).
Proof.
  induction l as [|x rest IH]; simpl; [reflexivity|].
  now rewrite !length_app, IH, same_length.
Qed.

Lemma flat_map_nth (before after : list A) (x : A) (i : nat) (b : B) :
  nth_error (F x) i = Some b ->
  nth_error (flat_map F (before ++ x :: after))
            (length (flat_map G before) + i)
  = Some b.
Proof.
  intros H. rewrite flat_map_app, <- flat_map_same_length.
  rewrite nth_error_app2 by lia.
  replace (length (flat_map F before) + i - length (flat_map F before))%nat
    with i by lia.
  simpl. rewrite nth_error_app1; [assumption|].
  apply nth_error_Some. congruence.
Qed.

End FlatMap.

Lemma all_answers_are_answers (user_tool_id : Z) (form_data : FormData) :
  forallb is_answer (all_answers user_tool_id form_data) = true.
Proof.
  unfold all_answers. apply forallb_forall. intros o Ho.
  apply in_flat_map in Ho. destruct Ho as (step & _ & Ho).
  pose proof (step_answers_are_answers user_tool_id step
                (stepData form_data step)) as H.
  rewrite forallb_forall in H. now apply H.
Qed.

Lemma all_answers_texts_ok (user_tool_id : Z) (form_data : FormData) :
  forallb answer_text_ok (all_answers user_tool_id form_data) = true.
Proof.
  unfold all_answers. apply forallb_forall. intros o Ho.
  apply in_flat_map in Ho. destruct Ho as (step & _ & Ho).
  unfold step_answers in Ho. apply in_map_iff in Ho.
  destruct Ho as (item & <- & _). simpl. now rewrite str_no_nul.
Qed.

Lemma all_answers_length (user_tool_id : Z) (form_data : FormData) :
  length (all_answers user_tool_id form_data)
  = length (submitted_values form_data).
Proof.
  apply flat_map_same_length. intros step. apply step_answers_length.
Qed.

Lemma all_answers_nth (user_tool_id : Z) (form_data : FormData)
  (step : Z) (index : nat) (value : Z) :
  2 <= step <= 8 ->
  nth_error (stepData form_data step) index = Some value ->
  nth_error (all_answers user_tool_id form_data)
            (position form_data step index)
  = Some (new_Answer user_tool_id ((step - 2) * 9 + Z.of_nat index + 1)
                     (str value)).
Proof.
  intros Hstep H. unfold all_answers, position.
  rewrite (range_cut step Hstep).
  apply (flat_map_nth
           (fun step => step_answers user_tool_id step
                          (stepData form_data step))
           (stepData form_data)).
  - intros x. apply step_answers_length.
  - now apply step_answers_nth.
Qed.

Lemma answer_rows_length (last : Z) (objs : list Transient) :
  forallb is_answer objs = true ->
  length (answer_rows last objs) = length objs.
Proof.
  revert last. induction objs as [|o rest IH]; intros last H;
    [reflexivity|].
  simpl in H. apply andb_true_iff in H. destruct H as [Ho Hrest].
  destruct o; try discriminate. simpl. now rewrite IH.
Qed.

Lemma answer_rows_nth (last : Z) (objs : list Transient) (n : nat)
  (user_tool_id question_id : Z) (answer_text : string) :
  forallb is_answer objs = true ->
  nth_error objs n = Some (new_Answer user_tool_id question_id answer_text) ->
  nth_error (answer_rows last objs) n
  = Some (Answer.mk (last + Z.of_nat n + 1) user_tool_id question_id
                    answer_text).
Proof.
  revert last n. induction objs as [|o rest IH]; intros last n Hall H.
  - destruct n; discriminate.
  - simpl in Hall. apply andb_true_iff in Hall. destruct Hall as [Ho Hrest].
    destruct o as [| |u q t]; try discriminate.
    destruct n as [|n]; simpl in *.
    + inversion H; subst. now rewrite Z.add_0_r.
    + rewrite (IH (last + 1) n Hrest H). do 2 f_equal. lia.
Qed.

(** The texts of the rows are the decimal notations of the values, in the
    order of submission. *)
Lemma answer_rows_step_texts (last user_tool_id step : Z)
  (step_data : list Z) (more : list Transient) :
  map Answer.answer_text
      (answer_rows last (step_answers user_tool_id step step_data ++ more))
  = map str step_data
    ++ map Answer.answer_text
         (answer_rows (last + Z.of_nat (length step_data)) more).
Proof.
  unfold step_answers, enumerate. generalize 0 as start.
  revert last. induction step_data as [|v rest IH]; intros last start.
  - simpl. now rewrite Z.add_0_r.
  - cbn [enumerate_from map app answer_rows Answer.answer_text fst snd].
    rewrite IH. cbn [map app length]. do 4 f_equal.
    rewrite Nat2Z.inj_succ. lia.
Qed.

Lemma all_answers_texts (last user_tool_id : Z) (form_data : FormData) :
  map Answer.answer_text
      (answer_rows last (all_answers user_tool_id form_data))
  = map str (submitted_values form_data).
Proof.
  unfold all_answers, submitted_values.
  generalize (range 2 9) as steps. intros steps. revert last.
  induction steps as [|step rest IH]; intros last; [reflexivity|].
  simpl. rewrite answer_rows_step_texts, IH, map_app. reflexivity.
Qed.

(* ===================================================================== *)
(** * The handler, phase by phase *)
(* ===================================================================== *)

Lemma commit_one (o : Transient) (db : Database) (now : Date) :
  commit (mkSession db [o] now)
  = match insert now o db with
    | inl e => (inl e, mkSession db [] now)
    | inr (key, db1) => (inr [key], mkSession db1 [] now)
    end.
Proof.
  unfold commit. simpl.
  destruct (insert now o db) as [e|[key db1]]; reflexivity.
Qed.

Lemma refresh_stored_user (u : User.t) (db : Database) (now : Date) :
  has_user db (User.user_id u) = false ->
  refresh_User [User.user_id u] (mkSession (store_user u db) [] now)
  = (inr u, mkSession (store_user u db) [] now).
Proof.
  intros H. unfold refresh_User. simpl.
  now rewrite (find_appended User.user_id _ _ _ H eq_refl).
Qed.

Lemma refresh_stored_user_tool (x : User_Tool.t) (db : Database)
  (now : Date) :
  has_user_tool db (User_Tool.user_tool_id x) = false ->
  refresh_User_Tool [User_Tool.user_tool_id x]
                    (mkSession (store_user_tool x db) [] now)
  = (inr x, mkSession (store_user_tool x db) [] now).
Proof.
  intros H. unfold refresh_User_Tool. simpl.
  now rewrite (find_appended User_Tool.user_tool_id _ _ _ H eq_refl).
Qed.

(** The third phase: from the refreshed user-tool link on. *)
Lemma answers_phase (form_data : FormData) (user_tool_id : Z)
  (db : Database) (now : Date) :
  (for_each (range 2 9) (answer_loop_body form_data user_tool_id) ;;
   commit ;;
   ret success_message) (mkSession db [] now)
  = match flush now (all_answers user_tool_id form_data) db with
    | inl e => (inl e, mkSession db [] now)
    | inr (_, db3) => (inr success_message, mkSession db3 [] now)
    end.
Proof.
  unfold then_ at 1. rewrite answer_loop. simpl.
  unfold then_, commit. simpl.
  destruct (flush now (all_answers user_tool_id form_data) db)
    as [e|[keys db3]]; reflexivity.
Qed.

Theorem run_submit_form_phases (form_data : FormData) (now : Date)
  (db : Database) :
  run_submit_form form_data now db = three_phases form_data now db.
Proof.
  unfold run_submit_form, three_phases, submit_form, get_db.
  destruct (split " " 1 (fullName form_data))
    as [|first_name [|last_name [|extra pieces]]]; try reflexivity.
  unfold then_ at 1. cbn [unpack2 ret fst snd].
  fold (user_of first_name last_name form_data).
  unfold then_ at 1. cbn [add bind new clock app].
  unfold then_ at 1. rewrite commit_one.
  destruct (insert now (user_of first_name last_name form_data) db)
    as [e|[user_id db1]] eqn:Huser; [reflexivity|].
  apply insert_user_inv in Huser.
  destruct Huser as (_ & Hfresh & _ & ->).
  unfold then_ at 1.
  pose proof (refresh_stored_user
                (user_row user_id first_name last_name form_data) db now
                Hfresh) as Ruser.
  cbn [user_row User.user_id] in Ruser. fold user_row in Ruser.
  rewrite Ruser.
  change (User.user_id (user_row user_id first_name last_name form_data))
    with user_id.
  unfold then_ at 1. cbn [add bind new clock app].
  unfold then_ at 1. rewrite commit_one.
  destruct (insert now (new_User_Tool user_id 1) _)
    as [e|[user_tool_id db2]] eqn:Htool; [reflexivity|].
  apply insert_user_tool_inv in Htool.
  destruct Htool as (_ & Hfresh2 & _ & _ & ->).
  unfold then_ at 1.
  pose proof (refresh_stored_user_tool
                (User_Tool.mk user_tool_id user_id 1 now (Some now)) _ now
                Hfresh2) as Rtool.
  cbn [User_Tool.user_tool_id] in Rtool.
  rewrite Rtool. cbn [User_Tool.user_tool_id].
  change (for_each (range 2 9) _ ;; commit ;; ret success_message)
    with (for_each (range 2 9)
            (answer_loop_body form_data user_tool_id) ;;
          commit ;; ret success_message).
  rewrite answers_phase.
  destruct (flush now (all_answers user_tool_id form_data) _)
    as [e|[keys db3]]; reflexivity.
Qed.

(** What an accepted submission looks like: the name was cut at its first
    space, the e-mail was new, and the database gained the rows of
    [after_submission] and nothing else. *)
Lemma accepted_inv (form_data : FormData) (now : Date) (db db' : Database)
  (r : json) :
  run_submit_form form_data now db = (inr r, db') ->
  exists first_name last_name,
    fullName form_data = (first_name ++ String " " last_name)%string
    /\ contains " " first_name = false
    /\ has_email db (emailAddress form_data) = false
    /\ has_user db (users_user_id_seq db + 1) = false
    /\ r = success_message
    /\ db' = after_submission form_data now db first_name last_name.
Proof.
  rewrite run_submit_form_phases. unfold three_phases.
  destruct (split " " 1 (fullName form_data))
    as [|first_name [|last_name [|extra pieces]]] eqn:Hsplit;
    try discriminate.
  destruct (insert now (user_of first_name last_name form_data) db)
    as [e|[user_id db1]] eqn:Huser; [discriminate|].
  destruct (insert now (new_User_Tool user_id 1) db1)
    as [e|[user_tool_id db2]] eqn:Htool; [discriminate|].
  destruct (flush now (all_answers user_tool_id form_data) db2)
    as [e|[keys db3]] eqn:Hflush; [discriminate|].
  intros H. inversion H; subst r db'. clear H.
  apply split_two_pieces in Hsplit. destruct Hsplit as [Hname Hfirst].
  apply insert_user_inv in Huser.
  destruct Huser as (-> & Hkey & Hemail & ->).
  apply insert_user_tool_inv in Htool.
  destruct Htool as (-> & _ & _ & _ & ->).
  apply flush_answers_inv in Hflush; [|apply all_answers_are_answers].
  exists first_name, last_name. repeat split; try assumption.
  rewrite Hflush, all_answers_length. reflexivity.
Qed.


(** The texts of the User object hold a NUL exactly when a text field of
    the form does. *)
Lemma user_fields_nul (form_data : FormData) (first_name last_name : string) :
  fullName form_data = (first_name ++ String " " last_name)%string ->
  any_nul [first_name; last_name; telephoneNumber form_data;
           emailAddress form_data; professionalStatus form_data;
           industry form_data; organisation form_data; jobLevel form_data;
           department form_data; location form_data]
  = nul_in_fields form_data.
Proof.
  intros Hname. unfold nul_in_fields, any_nul. cbn [existsb].
  now rewrite Hname, has_nul_cut, orb_assoc.
Qed.


Lemma submitted_values_steps (form_data : FormData) :
  submitted_values form_data
  = step2Data form_data ++ step3Data form_data ++ step4Data form_data
    ++ step5Data form_data ++ step6Data form_data ++ step7Data form_data
    ++ step8Data form_data.
Proof.
  unfold submitted_values, range. simpl. now rewrite app_nil_r.
Qed.

(* ===================================================================== *)
(** * The numbering of the answers *)
(* ===================================================================== *)

(** C1.  For every submission the handler accepts, the Answer row created
    for the value at position [index] (counted from 0) of the array of
    step [step] (2 to 8) has [question_id = (step - 2) * 9 + index + 1];
    it carries the key of the User_Tool row of the request and the string
    form of the value.  Nothing is assumed on the lengths of the arrays. *)
Theorem question_id_of_each_answer (form_data : FormData) (now : Date)
  (db db' : Database) (r : json) :
  run_submit_form form_data now db = (inr r, db') ->
  exists (x : User_Tool.t) (rows : list Answer.t),
    user_tools db' = user_tools db ++ [x]
    /\ answers db' = answers db ++ rows
    /\ forall (step : Z) (index : nat) (value : Z),
         2 <= step <= 8 ->
         nth_error (stepData form_data step) index = Some value ->
         exists row,
           nth_error rows (position form_data step index) = Some row
           /\ Answer.question_id row = (step - 2) * 9 + Z.of_nat index + 1
           /\ Answer.user_tool_id row = User_Tool.user_tool_id x
           /\ Answer.answer_text row = str value.
Proof.
  intros H. apply accepted_inv in H.
  destruct H as (first_name & last_name & _ & _ & _ & _ & _ & ->).
  exists (new_user_tool now db), (new_answers form_data db).
  split; [reflexivity|]. split; [reflexivity|].
  intros step index value Hstep Hvalue.
  exists (Answer.mk
            (answers_answer_id_seq db
             + Z.of_nat (position form_data step index) + 1)
            (user_tools_user_tool_id_seq db + 1)
            ((step - 2) * 9 + Z.of_nat index + 1)
            (str value)).
  split; [|repeat split].
  unfold new_answers. apply answer_rows_nth.
  - apply all_answers_are_answers.
  - now apply all_answers_nth.
Qed.

Lemma question_id_of_each_answer_witness :
  run_submit_form jane_doe_ten 19000 (seeded 63)
  = (inr success_message,
     snd (run_submit_form jane_doe_ten 19000 (seeded 63)))
  /\ exists (x : User_Tool.t) (rows : list Answer.t),
       user_tools (snd (run_submit_form jane_doe_ten 19000 (seeded 63)))
       = user_tools (seeded 63) ++ [x]
       /\ answers (snd (run_submit_form jane_doe_ten 19000 (seeded 63)))
          = answers (seeded 63) ++ rows
       /\ forall (step : Z) (index : nat) (value : Z),
            2 <= step <= 8 ->
            nth_error (stepData jane_doe_ten step) index = Some value ->
            exists row,
              nth_error rows (position jane_doe_ten step index) = Some row
              /\ Answer.question_id row
                 = (step - 2) * 9 + Z.of_nat index + 1
              /\ Answer.user_tool_id row = User_Tool.user_tool_id x
              /\ Answer.answer_text row = str value.
Proof.
  split; [run|].
  apply (question_id_of_each_answer jane_doe_ten 19000 (seeded 63) _
           success_message).
  run.
Defined.

(** C10.  The numbering is not injective once an array is longer than
    nine: there is an accepted submission with more than nine values in a
    step array two of whose Answer rows carry the same [question_id]; the
    value at index 9 of step 2 and the value at index 0 of step 3 are both
    filed under question 10. *)
Theorem question_id_shared_by_two_answers :
  exists (form_data : FormData) (now : Date) (db db' : Database)
         (rows : list Answer.t) (a b : Answer.t),
    run_submit_form form_data now db = (inr success_message, db')
    /\ (9 < length (stepData form_data 2))%nat
    /\ answers db' = answers db ++ rows
    /\ nth_error rows (position form_data 2 9) = Some a
    /\ nth_error rows (position form_data 3 0) = Some b
    /\ position form_data 2 9 <> position form_data 3 0
    /\ Answer.question_id a = (2 - 2) * 9 + 9 + 1
    /\ Answer.question_id b = (3 - 2) * 9 + 0 + 1
    /\ Answer.question_id a = Answer.question_id b.
Proof.
  exists jane_doe_ten, 19000, (seeded 63),
         (snd (run_submit_form jane_doe_ten 19000 (seeded 63))),
         (new_answers jane_doe_ten (seeded 63)),
         (Answer.mk 10 1 10 "5"), (Answer.mk 11 1 10 "3").
  conjuncts; try run.
  vm_compute. discriminate.
Qed.

(* ===================================================================== *)
(** * The rows of one submission *)
(* ===================================================================== *)

(** C2.  A submission that goes through creates exactly one User row,
    exactly one User_Tool row, whose [tool_id] is 1 and whose [user_id] is
    the key just generated for the user, and as many Answer rows as the
    seven step arrays have values together; the [answer_text] of each is
    the decimal string of the submitted integer.  The other tables are
    left as they were. *)
Theorem rows_of_a_submission (form_data : FormData) (now : Date)
  (db db' : Database) (r : json) :
  run_submit_form form_data now db = (inr r, db') ->
  exists (u : User.t) (x : User_Tool.t) (rows : list Answer.t),
    users db' = users db ++ [u]
    /\ user_tools db' = user_tools db ++ [x]
    /\ answers db' = answers db ++ rows
    /\ User_Tool.tool_id x = 1
    /\ User_Tool.user_id x = User.user_id u
    /\ User.user_id u = users_user_id_seq db + 1
    /\ ~ In (User.user_id u) (map User.user_id (users db))
    /\ length rows
       = (length (step2Data form_data) + length (step3Data form_data)
          + length (step4Data form_data) + length (step5Data form_data)
          + length (step6Data form_data) + length (step7Data form_data)
          + length (step8Data form_data))%nat
    /\ map Answer.answer_text rows
       = map str (step2Data form_data ++ step3Data form_data
                  ++ step4Data form_data ++ step5Data form_data
                  ++ step6Data form_data ++ step7Data form_data
                  ++ step8Data form_data)
    /\ Forall (fun a => Answer.user_tool_id a = User_Tool.user_tool_id x)
              rows
    /\ payments db' = payments db
    /\ diagnostic_tools db' = diagnostic_tools db
    /\ questions db' = questions db.
Proof.
  intros H. apply accepted_inv in H.
  destruct H as (first_name & last_name & _ & _ & _ & Hkey & _ & ->).
  exists (new_user form_data db first_name last_name),
         (new_user_tool now db), (new_answers form_data db).
  conjuncts; try reflexivity.
  - intros Hin. apply in_map_iff in Hin. destruct Hin as (v & Hv & Hin).
    unfold has_user in Hkey.
    assert (existsb (fun u => User.user_id u =? users_user_id_seq db + 1)
                    (users db) = true) as Habs.
    { apply existsb_exists. exists v. split; [assumption|].
      apply Z.eqb_eq. exact Hv. }
    congruence.
  - unfold new_answers.
    rewrite answer_rows_length by apply all_answers_are_answers.
    rewrite all_answers_length, submitted_values_steps.
    rewrite !length_app. lia.
  - unfold new_answers.
    rewrite all_answers_texts, submitted_values_steps. reflexivity.
  - unfold new_answers. apply Forall_forall. intros a Ha.
    apply In_nth_error in Ha. destruct Ha as [n Hn].
    pose proof (all_answers_are_answers
                  (user_tools_user_tool_id_seq db + 1) form_data) as Hall.
    destruct (nth_error
                (all_answers (user_tools_user_tool_id_seq db + 1) form_data)
                n) as [o|] eqn:Ho.
    + assert (In o (all_answers (user_tools_user_tool_id_seq db + 1)
                                form_data)) as Hin
        by (eapply nth_error_In; eassumption).
      unfold all_answers in Hin. apply in_flat_map in Hin.
      destruct Hin as (step & _ & Hin). unfold step_answers in Hin.
      apply in_map_iff in Hin. destruct Hin as (item & <- & _).
      rewrite (answer_rows_nth _ _ _ _ _ _ Hall Ho) in Hn.
      inversion Hn. reflexivity.
    + apply nth_error_None in Ho.
      assert (n < length (answer_rows (answers_answer_id_seq db)
                 (all_answers (user_tools_user_tool_id_seq db + 1)
                              form_data)))%nat as Hlt
        by (apply nth_error_Some; congruence).
      rewrite answer_rows_length in Hlt by assumption. lia.
Qed.

Lemma rows_of_a_submission_witness :
  run_submit_form jane_doe 19000 (seeded 63)
  = (inr success_message, snd (run_submit_form jane_doe 19000 (seeded 63)))
  /\ exists (u : User.t) (x : User_Tool.t) (rows : list Answer.t),
       users (snd (run_submit_form jane_doe 19000 (seeded 63)))
       = users (seeded 63) ++ [u]
       /\ user_tools (snd (run_submit_form jane_doe 19000 (seeded 63)))
          = user_tools (seeded 63) ++ [x]
       /\ answers (snd (run_submit_form jane_doe 19000 (seeded 63)))
          = answers (seeded 63) ++ rows
       /\ User_Tool.tool_id x = 1
       /\ User_Tool.user_id x = User.user_id u
       /\ length rows = 2%nat.
Proof.
  split; [run|].
  destruct (rows_of_a_submission jane_doe 19000 (seeded 63)
              (snd (run_submit_form jane_doe 19000 (seeded 63)))
              success_message)
    as (u & x & rows & Hu & Hx & Hrows & Htool & Huser & _ & _ & Hlen & _).
  - run.
  - exists u, x, rows. repeat (split; [assumption|]). exact Hlen.
Defined.

(** C7.  A submission that completes the three commits is answered with
    exactly the JSON object [{"message": "Form submitted successfully"}]
    (status 200). *)
Theorem success_body (form_data : FormData) (now : Date)
  (db db' : Database) (r : json) :
  run_submit_form form_data now db = (inr r, db') ->
  r = JObject [("message", JString "Form submitted successfully")]
  /\ status_code (inr r) = 200.
Proof.
  intros H. apply accepted_inv in H.
  destruct H as (first_name & last_name & _ & _ & _ & _ & -> & _).
  split; reflexivity.
Qed.

Lemma success_body_witness :
  fst (run_submit_form jane_doe 19000 (seeded 63))
  = inr (JObject [("message", JString "Form submitted successfully")]).
Proof.
  destruct (success_body jane_doe 19000 (seeded 63)
              (snd (run_submit_form jane_doe 19000 (seeded 63)))
              success_message) as [_ _].
  - run.
  - run.
Defined.

(* ===================================================================== *)
(** * The two names *)
(* ===================================================================== *)

(** C5.  When [fullName] has a space, the handler cuts it at the first
    one: the name is some [first_name], free of spaces, then a space, then
    [last_name]; the split yields these two pieces, and an accepted
    submission stores the first as [first_name] and the second, further
    spaces included, as [last_name]. *)
Theorem name_cut_at_first_space (form_data : FormData) :
  contains " " (fullName form_data) = true ->
  exists first_name last_name : string,
    fullName form_data = (first_name ++ String " " last_name)%string
    /\ contains " " first_name = false
    /\ split " " 1 (fullName form_data) = [first_name; last_name]
    /\ forall (now : Date) (db db' : Database) (r : json),
         run_submit_form form_data now db = (inr r, db') ->
         exists u : User.t,
           users db' = users db ++ [u]
           /\ User.first_name u = first_name
           /\ User.last_name u = last_name.
Proof.
  intros Hspace.
  destruct (contains_cut " " _ Hspace)
    as (first_name & last_name & Hname & Hfirst).
  exists first_name, last_name.
  split; [exact Hname|]. split; [exact Hfirst|]. split.
  - rewrite Hname. now apply split_at_first.
  - intros now db db' r H. apply accepted_inv in H.
    destruct H as (first_name' & last_name' & Hcut & Hfirst' & _ & _ & _ & ->).
    rewrite Hname in Hcut.
    destruct (cut_unique " " _ _ _ _ Hfirst Hfirst' Hcut) as [<- <-].
    exists (new_user form_data db first_name last_name).
    repeat split.
Qed.

Lemma name_cut_at_first_space_witness :
  split " " 1 (fullName jane_van_der_doe) = ["Jane"; "van der Doe"]
  /\ exists u : User.t,
       users (snd (run_submit_form jane_van_der_doe 19000 (seeded 63)))
       = users (seeded 63) ++ [u]
       /\ User.first_name u = "Jane"
       /\ User.last_name u = "van der Doe".
Proof.
  split; [reflexivity|].
  destruct (name_cut_at_first_space jane_van_der_doe eq_refl)
    as (first_name & last_name & Hname & Hfirst & _ & Hstored).
  destruct (cut_unique " " first_name last_name "Jane" "van der Doe"
              Hfirst eq_refl) as [-> ->].
  { rewrite <- Hname. reflexivity. }
  apply (Hstored 19000 (seeded 63) _ success_message).
  run.
Defined.

(** C9.  The first name can be empty.  The submission of [" Jane Doe"] is
    accepted and stored with an empty [first_name]; and whenever [fullName]
    starts with a space, the split yields two pieces, so the unpacking
    does not raise, and an accepted submission stores the empty string as
    [first_name] and all that follows the space as [last_name]. *)
Theorem empty_first_name :
  (exists (form_data : FormData) (now : Date) (db db' : Database)
          (u : User.t),
      fullName form_data = " Jane Doe"
      /\ run_submit_form form_data now db = (inr success_message, db')
      /\ users db' = users db ++ [u]
      /\ User.first_name u = EmptyString
      /\ User.last_name u = "Jane Doe")
  /\ (forall (form_data : FormData) (remainder : string),
        fullName form_data = String " " remainder ->
        split " " 1 (fullName form_data) = [EmptyString; remainder]
        /\ forall (now : Date) (db db' : Database) (r : json),
             run_submit_form form_data now db = (inr r, db') ->
             exists u : User.t,
               users db' = users db ++ [u]
               /\ User.first_name u = EmptyString
               /\ User.last_name u = remainder).
Proof.
  split.
  - exists space_jane_doe, 19000, (seeded 63),
           (snd (run_submit_form space_jane_doe 19000 (seeded 63))),
           (new_user space_jane_doe (seeded 63) EmptyString "Jane Doe").
    conjuncts; run.
  - intros form_data remainder Hname.
    assert (split " " 1 (fullName form_data) = [EmptyString; remainder])
      as Hsplit.
    { rewrite Hname. apply (split_at_first " " EmptyString remainder).
      reflexivity. }
    split; [exact Hsplit|].
    intros now db db' r H. apply accepted_inv in H.
    destruct H as (first_name & last_name & Hcut & Hfirst & _ & _ & _ & ->).
    destruct (cut_unique " " first_name last_name EmptyString remainder Hfirst
                eq_refl) as [-> ->].
    { rewrite <- Hcut. exact Hname. }
    exists (new_user form_data db EmptyString remainder).
    repeat split.
Qed.

Lemma empty_first_name_witness :
  split " " 1 (fullName space_jane_doe) = [EmptyString; "Jane Doe"]
  /\ exists u : User.t,
       users (snd (run_submit_form space_jane_doe 19000 (seeded 63)))
       = users (seeded 63) ++ [u]
       /\ User.first_name u = EmptyString
       /\ User.last_name u = "Jane Doe".
Proof.
  destruct (proj2 empty_first_name space_jane_doe "Jane Doe" eq_refl)
    as [Hsplit Hstored].
  split; [exact Hsplit|].
  apply (Hstored 19000 (seeded 63) _ success_message).
  run.
Defined.

(* ===================================================================== *)
(** * Failures *)
(* ===================================================================== *)

Lemma insert_user_error (now : Date) (first_name last_name : string)
  (form_data : FormData) (db : Database) (e : Exception) :
  insert now (user_of first_name last_name form_data) db = inl e ->
  e = DBAPIError \/ e = IntegrityError unique_violation t_users.
Proof.
  unfold user_of, insert.
  destruct (any_nul _); [inversion 1; now left|].
  destruct (has_user db _); [inversion 1; now right|].
  destruct (has_email db _); [inversion 1; now right|discriminate].
Qed.


Lemma insert_user_tool_error (now : Date) (user_id tool_id : Z)
  (db : Database) (e : Exception) :
  insert now (new_User_Tool user_id tool_id) db = inl e ->
  exists kind, e = IntegrityError kind t_user_tools.
Proof.
  unfold insert.
  destruct (has_user_tool db _); [inversion 1; now eexists|].
  destruct (negb _); [inversion 1; now eexists|discriminate].
Qed.

Lemma has_email_In (db : Database) (address : string) :
  has_email db address = true <-> In address (map User.email (users db)).
Proof.
  unfold has_email. rewrite existsb_exists, in_map_iff.
  split; intros (u & H1 & H2); exists u.
  - apply String.eqb_eq in H2. now split.
  - split; [assumption|]. now apply String.eqb_eq.
Qed.




(** C8.  The answers of a request are flushed by one commit, after the
    loop: they become durable together or not at all.  A request that
    fails leaves no Answer row; when it fails while the answers are
    persisted, the User row and the User_Tool row committed before stay.
    A request that succeeds leaves one Answer row per submitted value. *)
Theorem answers_all_or_nothing (form_data : FormData) (now : Date)
  (db db' : Database) (outcome : Exception + json) :
  run_submit_form form_data now db = (outcome, db') ->
  match outcome with
  | inr _ =>
      exists rows : list Answer.t,
        answers db' = answers db ++ rows
        /\ length rows = length (submitted_values form_data)
  | inl e =>
      answers db' = answers db
      /\ forall kind : Violation,
           e = IntegrityError kind t_answers ->
           exists (u : User.t) (x : User_Tool.t),
             users db' = users db ++ [u]
             /\ user_tools db' = user_tools db ++ [x]
             /\ User_Tool.user_id x = User.user_id u
  end.
Proof.
  destruct outcome as [e|r]; intros H.
  - rewrite run_submit_form_phases in H. unfold three_phases in H.
    destruct (split " " 1 (fullName form_data))
      as [|first_name [|last_name [|extra pieces]]];
      try (inversion H; subst; split; [reflexivity|discriminate]).
    destruct (insert now (user_of first_name last_name form_data) db)
      as [e1|[user_id db1]] eqn:Huser.
    { apply insert_user_error in Huser.
      destruct Huser as [->| ->]; inversion H; subst;
        (split; [reflexivity|discriminate]). }
    apply insert_user_inv in Huser. destruct Huser as (_ & _ & _ & ->).
    destruct (insert now (new_User_Tool user_id 1) _)
      as [e2|[user_tool_id db2]] eqn:Htool.
    { apply insert_user_tool_error in Htool. destruct Htool as [k ->].
      inversion H; subst. split; [reflexivity|discriminate]. }
    apply insert_user_tool_inv in Htool.
    destruct Htool as (_ & _ & _ & _ & ->).
    destruct (flush now (all_answers user_tool_id form_data) _)
      as [e3|[keys db3]]; inversion H; subst.
    split; [reflexivity|]. intros kind _.
    eexists. eexists. repeat split.
  - apply accepted_inv in H.
    destruct H as (first_name & last_name & _ & _ & _ & _ & _ & ->).
    exists (new_answers form_data db). split; [reflexivity|].
    unfold new_answers.
    rewrite answer_rows_length by apply all_answers_are_answers.
    apply all_answers_length.
Qed.

Lemma answers_all_or_nothing_witness :
  run_submit_form jane_doe_three 19000 (seeded 2)
  = (inl (IntegrityError foreign_key_violation t_answers),
     snd (run_submit_form jane_doe_three 19000 (seeded 2)))
  /\ answers (snd (run_submit_form jane_doe_three 19000 (seeded 2)))
     = answers (seeded 2)
  /\ exists (u : User.t) (x : User_Tool.t),
       users (snd (run_submit_form jane_doe_three 19000 (seeded 2)))
       = users (seeded 2) ++ [u]
       /\ user_tools (snd (run_submit_form jane_doe_three 19000 (seeded 2)))
          = user_tools (seeded 2) ++ [x]
       /\ User_Tool.user_id x = User.user_id u.
Proof.
  assert (run_submit_form jane_doe_three 19000 (seeded 2)
          = (inl (IntegrityError foreign_key_violation t_answers),
             snd (run_submit_form jane_doe_three 19000 (seeded 2))))
    as Hrun by run.
  split; [exact Hrun|].
  destruct (answers_all_or_nothing jane_doe_three 19000 (seeded 2) _ _ Hrun)
    as [Hnone Hstay].
  split; [exact Hnone|].
  exact (Hstay foreign_key_violation eq_refl).
Defined.

(* ===================================================================== *)
(** * Validation *)
(* ===================================================================== *)

Lemma validate_passes (EmailStr : string -> option string)
  (body : FormData) (address : string) :
  EmailStr (emailAddress body) = Some address ->
  FormData_validate EmailStr body
  = inr (mkFormData (fullName body) (telephoneNumber body) address
           (professionalStatus body) (industry body) (organisation body)
           (jobLevel body) (department body) (location body)
           (step2Data body) (step3Data body) (step4Data body)
           (step5Data body) (step6Data body) (step7Data body)
           (step8Data body)).
Proof. unfold FormData_validate. now intros ->. Qed.

Lemma one_name_raises (form_data : FormData) (now : Date) (db : Database) :
  contains " " (fullName form_data) = false ->
  run_submit_form form_data now db = (inl ValueError, db).
Proof.
  intros H. rewrite run_submit_form_phases. unfold three_phases.
  now rewrite (split_without " " _ H).
Qed.

(** C3.  The code at the body whose [fullName] is ["Jane"].  The name has
    no space; the body passes validation, which does not look at
    [fullName]; the handler raises [ValueError] where it unpacks the one
    piece of the split into two names, and nothing catches it: the request
    is answered with status 500, not with a validation error.  No row is
    written. *)
Theorem one_name_is_not_a_validation_error :
  contains " " (fullName jane) = false
  /\ FormData_validate plain_EmailStr jane = inr jane
  /\ run_submit_form jane 19000 (seeded 63) = (inl ValueError, seeded 63)
  /\ post_submit_form plain_EmailStr jane 19000 (seeded 63)
     = (inl ValueError, seeded 63)
  /\ fst (post_submit_form plain_EmailStr jane 19000 (seeded 63))
     <> inl RequestValidationError
  /\ status_code (fst (post_submit_form plain_EmailStr jane 19000
                         (seeded 63))) = 500.
Proof.
  conjuncts; try run.
  vm_compute. discriminate.
Qed.

(** C4, as the code has it.  The seven profile fields are declared [str]
    and nothing more: validation passes or fails on [emailAddress] alone,
    whatever the seven fields hold, the empty string included; a body that
    passes is handed to the handler with the seven fields as submitted,
    and an accepted submission stores them in the User row unchanged. *)
Theorem profile_fields_are_not_checked
  (EmailStr : string -> option string) (body : FormData)
  (address : string) :
  EmailStr (emailAddress body) = Some address ->
  exists form_data : FormData,
    FormData_validate EmailStr body = inr form_data
    /\ telephoneNumber form_data = telephoneNumber body
    /\ professionalStatus form_data = professionalStatus body
    /\ industry form_data = industry body
    /\ organisation form_data = organisation body
    /\ jobLevel form_data = jobLevel body
    /\ department form_data = department body
    /\ location form_data = location body
    /\ forall (now : Date) (db db' : Database) (r : json),
         post_submit_form EmailStr body now db = (inr r, db') ->
         exists u : User.t,
           users db' = users db ++ [u]
           /\ User.telephone_number u = telephoneNumber body
           /\ User.professional_status u = professionalStatus body
           /\ User.industry u = industry body
           /\ User.organization u = organisation body
           /\ User.job_level u = jobLevel body
           /\ User.department u = department body
           /\ User.location u = location body.
Proof.
  intros Hemail. eexists.
  split; [exact (validate_passes _ _ _ Hemail)|].
  repeat (split; [reflexivity|]).
  intros now db db' r H. unfold post_submit_form in H.
  rewrite (validate_passes _ _ _ Hemail) in H.
  apply accepted_inv in H.
  destruct H as (first_name & last_name & _ & _ & _ & _ & _ & ->).
  eexists. split; [reflexivity|]. repeat split.
Qed.

Lemma profile_fields_are_not_checked_witness :
  FormData_validate plain_EmailStr jane_doe_blank = inr jane_doe_blank
  /\ exists u : User.t,
       users (snd (post_submit_form plain_EmailStr jane_doe_blank 19000
                     (seeded 63)))
       = users (seeded 63) ++ [u]
       /\ User.telephone_number u = EmptyString
       /\ User.professional_status u = EmptyString
       /\ User.industry u = EmptyString
       /\ User.organization u = EmptyString
       /\ User.job_level u = EmptyString
       /\ User.department u = EmptyString
       /\ User.location u = EmptyString.
Proof.
  destruct (profile_fields_are_not_checked plain_EmailStr jane_doe_blank
              "jane@diagnostics.org")
    as (form_data & Hvalid & _ & _ & _ & _ & _ & _ & _ & Hstored).
  - run.
  - split; [run|].
    apply (Hstored 19000 (seeded 63) _ success_message).
    run.
Defined.

(** C4, as stated, fails: a body whose [telephoneNumber] is the empty
    string passes validation, is served, and its User row is stored with
    an empty [telephone_number]. *)
Lemma empty_telephone_number_is_accepted :
  telephoneNumber jane_doe_no_phone = EmptyString
  /\ FormData_validate plain_EmailStr jane_doe_no_phone
     = inr jane_doe_no_phone
  /\ fst (post_submit_form plain_EmailStr jane_doe_no_phone 19000
            (seeded 63))
     = inr success_message
  /\ map User.telephone_number
         (users (snd (post_submit_form plain_EmailStr jane_doe_no_phone
                        19000 (seeded 63))))
     = [EmptyString].
Proof.
  conjuncts; run.
Qed.

(* ===================================================================== *)
(** * The end-to-end scenario *)
(* ===================================================================== *)

(** Jane Doe with two answers in step 2: one user (Jane, Doe), one
    user-tool link to tool 1, two answers under questions 1 and 2, and the
    success message. *)
Example jane_doe_end_to_end :
  let (outcome, db) :=
    post_submit_form plain_EmailStr jane_doe 19000 (seeded 63) in
  outcome = inr success_message
  /\ map (fun u => (User.first_name u, User.last_name u)) (users db)
     = [("Jane", "Doe")]
  /\ map User_Tool.tool_id (user_tools db) = [1]
  /\ map Answer.question_id (answers db) = [1; 2]
  /\ map Answer.answer_text (answers db) = ["1"; "2"].
Proof. vm_compute. conjuncts; reflexivity. Qed.

(* ===================================================================== *)
(** * What every request keeps *)
(* ===================================================================== *)

(** A property of databases that every successful INSERT keeps is kept by
    every flush, and by every request, whatever its outcome: the database
    a request leaves is reached from the one it found by INSERTs that went
    through. *)
Section Kept.

Variable P : Database -> Prop.

Hypothesis insert_keeps :
  forall (now : Date) (o : Transient) (db db' : Database) (key : Z),
    P db -> insert now o db = inr (key, db') -> P db'.

Lemma flush_keeps (now : Date) (objs : list Transient) (db db' : Database)
  (keys : list Z) :
  P db -> flush now objs db = inr (keys, db') -> P db'.
Proof.
  revert db keys. induction objs as [|o rest IH]; intros db keys HP H.
  - simpl in H. inversion H; subst. exact HP.
  - simpl in H.
    destruct (insert now o db) as [e|[key db1]] eqn:Hins; [discriminate|].
    destruct (flush now rest db1) as [e|[keys1 db2]] eqn:Hrec;
      [discriminate|].
    inversion H; subst.
    apply (IH db1 keys1); [|exact Hrec].
    exact (insert_keeps now o db db1 key HP Hins).
Qed.

Lemma run_keeps (form_data : FormData) (now : Date) (db db' : Database)
  (outcome : Exception + json) :
  P db -> run_submit_form form_data now db = (outcome, db') -> P db'.
Proof.
  intros HP H. rewrite run_submit_form_phases in H. unfold three_phases in H.
  destruct (split " " 1 (fullName form_data))
    as [|first_name [|last_name [|extra pieces]]];
    try (inversion H; subst; exact HP).
  destruct (insert now (user_of first_name last_name form_data) db)
    as [e|[user_id db1]] eqn:Huser; [inversion H; subst; exact HP|].
  pose proof (insert_keeps _ _ _ _ _ HP Huser) as HP1.
  destruct (insert now (new_User_Tool user_id 1) db1)
    as [e|[user_tool_id db2]] eqn:Htool; [inversion H; subst; exact HP1|].
  pose proof (insert_keeps _ _ _ _ _ HP1 Htool) as HP2.
  destruct (flush now (all_answers user_tool_id form_data) db2)
    as [e|[keys db3]] eqn:Hflush; inversion H; subst; [exact HP2|].
  exact (flush_keeps _ _ _ _ _ HP2 Hflush).
Qed.

End Kept.

Section Lists.

Context {R K : Type} (key_of : R -> K).

Lemma NoDup_added (rows : list R) (r : R) :
  NoDup (map key_of rows) ->
  ~ In (key_of r) (map key_of rows) ->
  NoDup (map key_of (rows ++ [r])).
Proof.
  intros Hrows Hr. rewrite map_app. apply NoDup_app.
  - exact Hrows.
  - simpl. constructor; [intros []|constructor].
  - intros a Ha [<-|[]]. exact (Hr Ha).
Qed.

Lemma forallb_weaken (f g : R -> bool) (rows : list R) :
  (forall r, f r = true -> g r = true) ->
  forallb f rows = true -> forallb g rows = true.
Proof.
  intros Hfg H. rewrite forallb_forall in *. intros r Hr.
  apply Hfg, H, Hr.
Qed.

End Lists.

Lemma absent_key {R : Type} (key_of : R -> Z) (rows : list R) (key : Z) :
  existsb (fun r => key_of r =? key) rows = false ->
  ~ In key (map key_of rows).
Proof.
  intros H Hin. apply in_map_iff in Hin. destruct Hin as (r & Hr & Hin).
  assert (existsb (fun r => key_of r =? key) rows = true) as Habs.
  { apply existsb_exists. exists r. split; [exact Hin|].
    now apply Z.eqb_eq. }
  congruence.
Qed.

Lemma absent_email (db : Database) (address : string) :
  has_email db address = false ->
  ~ In address (map User.email (users db)).
Proof.
  intros H Hin. apply has_email_In in Hin. congruence.
Qed.

Lemma present_after {R : Type} (f : R -> bool) (rows added : list R) :
  existsb f rows = true -> existsb f (rows ++ added) = true.
Proof. intros H. now rewrite existsb_app, H. Qed.

Lemma insert_keeps_unique (now : Date) (o : Transient) (db db' : Database)
  (key : Z) :
  keys_unique db -> insert now o db = inr (key, db') -> keys_unique db'.
Proof.
  intros (Hu & He & Hx & Ha) H. unfold keys_unique.
  destruct o as [fn ln tel em ps ind org jl dep loc|uid tid|utid qid txt];
    unfold insert in H.
  - destruct (any_nul _); [discriminate|].
    destruct (has_user db _) eqn:Hkey; [discriminate|].
    destruct (has_email db em) eqn:Hem; [discriminate|].
    inversion H; subst. cbn [store_user users user_tools answers].
    conjuncts; try assumption.
    + apply (NoDup_added User.user_id); [exact Hu|].
      exact (absent_key User.user_id _ _ Hkey).
    + apply (NoDup_added User.email); [exact He|].
      exact (absent_email db em Hem).
  - destruct (has_user_tool db _) eqn:Hkey; [discriminate|].
    destruct (negb _); [discriminate|].
    inversion H; subst. cbn [store_user_tool users user_tools answers].
    conjuncts; try assumption.
    apply (NoDup_added User_Tool.user_tool_id); [exact Hx|].
    exact (absent_key User_Tool.user_tool_id _ _ Hkey).
  - destruct (has_nul _); [discriminate|].
    destruct (has_answer db _) eqn:Hkey; [discriminate|].
    destruct (negb _); [discriminate|].
    inversion H; subst. cbn [store_answer users user_tools answers].
    conjuncts; try assumption.
    apply (NoDup_added Answer.answer_id); [exact Ha|].
    exact (absent_key Answer.answer_id _ _ Hkey).
Qed.

Lemma insert_keeps_references (now : Date) (o : Transient)
  (db db' : Database) (key : Z) :
  references_resolve db = true ->
  insert now o db = inr (key, db') ->
  references_resolve db' = true.
Proof.
  unfold references_resolve. intros Href H.
  apply andb_true_iff in Href. destruct Href as [Href Hanswers].
  apply andb_true_iff in Href. destruct Href as [Href Hquestions].
  apply andb_true_iff in Href. destruct Href as [Hpayments Htools].
  destruct o as [fn ln tel em ps ind org jl dep loc|uid tid|utid qid txt];
    unfold insert in H.
  - destruct (any_nul _); [discriminate|].
    destruct (has_user db _); [discriminate|].
    destruct (has_email db em); [discriminate|].
    inversion H; subst. clear H.
    rewrite !andb_true_iff. conjuncts.
    + revert Hpayments. apply forallb_weaken. intros p.
      apply present_after.
    + revert Htools. apply forallb_weaken. intros x Hx.
      apply andb_true_iff in Hx. destruct Hx as [Hx1 Hx2].
      apply andb_true_iff. split; [|exact Hx2].
      revert Hx1. apply present_after.
    + exact Hquestions.
    + exact Hanswers.
  - destruct (has_user_tool db _); [discriminate|].
    destruct (has_user db uid && has_tool db tid) eqn:Hrefs;
      [|discriminate].
    inversion H; subst. clear H.
    rewrite !andb_true_iff. conjuncts.
    + exact Hpayments.
    + cbn [store_user_tool user_tools]. rewrite forallb_app.
      apply andb_true_iff. split; [exact Htools|].
      simpl. now rewrite andb_true_r.
    + exact Hquestions.
    + revert Hanswers. apply forallb_weaken. intros a Ha.
      apply andb_true_iff in Ha. destruct Ha as [Ha1 Ha2].
      apply andb_true_iff. split; [|exact Ha2].
      revert Ha1. apply present_after.
  - destruct (has_nul _); [discriminate|].
    destruct (has_answer db _); [discriminate|].
    destruct (has_user_tool db utid && has_question db qid) eqn:Hrefs;
      [|discriminate].
    inversion H; subst. clear H.
    rewrite !andb_true_iff. conjuncts.
    + exact Hpayments.
    + exact Htools.
    + exact Hquestions.
    + cbn [store_answer answers]. rewrite forallb_app.
      apply andb_true_iff. split; [exact Hanswers|].
      simpl. now rewrite andb_true_r.
Qed.

Lemma insert_keeps_sequences (now : Date) (o : Transient)
  (db db' : Database) (key : Z) :
  sequences_ahead db = true ->
  insert now o db = inr (key, db') ->
  sequences_ahead db' = true.
Proof.
  unfold sequences_ahead. intros Hseq H.
  apply andb_true_iff in Hseq. destruct Hseq as [Hseq Hanswers].
  apply andb_true_iff in Hseq. destruct Hseq as [Husers Htools].
  destruct o as [fn ln tel em ps ind org jl dep loc|uid tid|utid qid txt];
    unfold insert in H.
  - destruct (any_nul _); [discriminate|].
    destruct (has_user db _); [discriminate|].
    destruct (has_email db em); [discriminate|].
    inversion H; subst. clear H.
    rewrite !andb_true_iff. conjuncts; try assumption.
    now apply (sequence_step User.user_id).
  - destruct (has_user_tool db _); [discriminate|].
    destruct (negb _); [discriminate|].
    inversion H; subst. clear H.
    rewrite !andb_true_iff. conjuncts; try assumption.
    now apply (sequence_step User_Tool.user_tool_id).
  - destruct (has_nul _); [discriminate|].
    destruct (has_answer db _); [discriminate|].
    destruct (negb _); [discriminate|].
    inversion H; subst. clear H.
    rewrite !andb_true_iff. conjuncts; try assumption.
    now apply (sequence_step Answer.answer_id).
Qed.

(* ===================================================================== *)
(** * The outcome, read off the input *)
(* ===================================================================== *)

Section Forallb.

Context {A B : Type}.

Lemma forallb_same (f g : A -> bool) (l : list A) :
  (forall x, f x = g x) -> forallb f l = forallb g l.
Proof.
  intros H. induction l as [|x rest IH]; simpl; [reflexivity|].
  now rewrite H, IH.
Qed.

Lemma forallb_mapped (f : B -> bool) (g : A -> B) (l : list A) :
  forallb f (map g l) = forallb (fun x => f (g x)) l.
Proof.
  induction l as [|x rest IH]; simpl; [reflexivity|]. now rewrite IH.
Qed.

Lemma forallb_flat_mapped (f : B -> bool) (g : A -> list B) (l : list A) :
  forallb f (flat_map g l) = forallb (fun x => forallb f (g x)) l.
Proof.
  induction l as [|x rest IH]; simpl; [reflexivity|].
  now rewrite forallb_app, IH.
Qed.

End Forallb.

(** Once the user-tool link is stored, the references of the queued
    answers resolve exactly when their questions are seeded. *)
Lemma refs_are_seeds (form_data : FormData) (db db2 : Database)
  (user_tool_id : Z) :
  questions db2 = questions db ->
  has_user_tool db2 user_tool_id = true ->
  forallb (answer_refs_ok db2) (all_answers user_tool_id form_data)
  = questions_seeded db form_data.
Proof.
  intros Hq Hx. unfold all_answers, questions_seeded.
  rewrite forallb_flat_mapped. apply forallb_same. intros step.
  unfold step_answers. rewrite forallb_mapped. apply forallb_same.
  intros item. simpl. rewrite Hx. unfold has_question. now rewrite Hq.
Qed.

(** A flush of answers that goes through found every reference
    resolved. *)
Lemma flush_answers_refs (now : Date) (objs : list Transient)
  (db db' : Database) (keys : list Z) :
  forallb is_answer objs = true ->
  flush now objs db = inr (keys, db') ->
  forallb (answer_refs_ok db) objs = true.
Proof.
  revert db db' keys.
  induction objs as [|o rest IH]; intros db db' keys Hall H.
  - reflexivity.
  - simpl in Hall. apply andb_true_iff in Hall. destruct Hall as [Ho Hrest].
    destruct o as [| |user_tool_id question_id answer_text];
      try discriminate.
    simpl in H.
    destruct (has_nul answer_text); [discriminate|].
    destruct (has_answer db (answers_answer_id_seq db + 1)); [discriminate|].
    destruct (has_user_tool db user_tool_id && has_question db question_id)
      eqn:Href; simpl in H; [|discriminate].
    destruct (flush now rest _) as [e|[keys1 db1]] eqn:Hrec; [discriminate|].
    simpl. rewrite Href. simpl.
    exact (IH _ _ _ Hrest Hrec).
Qed.

Lemma cut_contains (s first_name last_name : string) :
  s = (first_name ++ String " " last_name)%string ->
  contains " " first_name = false ->
  contains " " s = true.
Proof.
  intros Hname Hfirst.
  destruct (contains " " s) eqn:Hc; [reflexivity|].
  pose proof (split_without " " _ Hc) as Hs.
  rewrite Hname, (split_at_first " " _ _ Hfirst) in Hs. discriminate.
Qed.

Lemma insert_user_no_nul (now : Date) (first_name last_name : string)
  (form_data : FormData) (db : Database) (r : Z * Database) :
  fullName form_data = (first_name ++ String " " last_name)%string ->
  insert now (user_of first_name last_name form_data) db = inr r ->
  nul_in_fields form_data = false.
Proof.
  intros Hname. unfold user_of, insert.
  rewrite (user_fields_nul form_data first_name last_name Hname).
  destruct (nul_in_fields form_data); intros H;
    [discriminate|reflexivity].
Qed.



(** The four shapes of the database a request leaves: untouched; the user
    added; the user and the link added; all added. *)
Lemma run_shapes (form_data : FormData) (now : Date) (db db' : Database)
  (outcome : Exception + json) :
  run_submit_form form_data now db = (outcome, db') ->
  (db' = db
   /\ (outcome = inl ValueError
       /\ contains " " (fullName form_data) = false
       \/ outcome = inl DBAPIError
          /\ contains " " (fullName form_data) = true
       \/ outcome = inl (IntegrityError unique_violation t_users)
          /\ contains " " (fullName form_data) = true))
  \/ exists first_name last_name : string,
       fullName form_data = (first_name ++ String " " last_name)%string
       /\ contains " " first_name = false
       /\ has_email db (emailAddress form_data) = false
       /\ ((exists kind,
              outcome = inl (IntegrityError kind t_user_tools)
              /\ db' = store_user
                         (new_user form_data db first_name last_name) db)
           \/ (exists kind,
                 outcome = inl (IntegrityError kind t_answers)
                 /\ db' = store_user_tool (new_user_tool now db)
                            (store_user
                               (new_user form_data db first_name last_name)
                               db))
           \/ (outcome = inr success_message
               /\ db' = after_submission form_data now db
                          first_name last_name)).
Proof.
  intros H.
  destruct (contains " " (fullName form_data)) eqn:Hspace.
  2:{ rewrite (one_name_raises _ _ _ Hspace) in H. inversion H; subst.
      left. split; [reflexivity|]. left. split; reflexivity. }
  destruct (contains_cut " " _ Hspace)
    as (first_name & last_name & Hname & Hfirst).
  rewrite run_submit_form_phases in H. unfold three_phases in H.
  rewrite Hname in H at 1. rewrite (split_at_first " " _ _ Hfirst) in H.
  destruct (insert now (user_of first_name last_name form_data) db)
    as [e|[user_id db1]] eqn:Huser.
  { apply insert_user_error in Huser.
    destruct Huser as [->| ->]; inversion H; subst;
      (left; split; [reflexivity|]; right);
      [left|right]; split; reflexivity. }
  right. exists first_name, last_name.
  apply insert_user_inv in Huser. destruct Huser as (-> & _ & Hemail & ->).
  split; [exact Hname|]. split; [exact Hfirst|]. split; [exact Hemail|].
  destruct (insert now (new_User_Tool (users_user_id_seq db + 1) 1) _)
    as [e|[user_tool_id db2]] eqn:Htool.
  { apply insert_user_tool_error in Htool. destruct Htool as [kind ->].
    inversion H; subst. left. exists kind. split; reflexivity. }
  apply insert_user_tool_inv in Htool. destruct Htool as (-> & _ & _ & _ & ->).
  right.
  destruct (flush now (all_answers _ form_data) _) as [e|[keys db3]]
    eqn:Hflush; inversion H; subst; clear H.
  - apply flush_answers_error in Hflush;
      [|apply all_answers_are_answers|apply all_answers_texts_ok].
    destruct Hflush as [kind ->].
    left. exists kind. split; reflexivity.
  - right. split; [reflexivity|].
    apply flush_answers_inv in Hflush; [|apply all_answers_are_answers].
    rewrite Hflush, all_answers_length. reflexivity.
Qed.


(** X1.  What an accepted submission has passed.  When [submit_form]
    returns its message, the name had a space, no text field held a NUL
    character, the e-mail was not in [users], tool 1 was in
    [diagnostic_tools], and every question an answer is filed under was
    in [questions]. *)
Theorem accepted_only_past_every_check (form_data : FormData) (now : Date)
  (db db' : Database) (r : json) :
  run_submit_form form_data now db = (inr r, db') ->
  contains " " (fullName form_data) = true
  /\ nul_in_fields form_data = false
  /\ has_email db (emailAddress form_data) = false
  /\ has_tool db 1 = true
  /\ questions_seeded db form_data = true.
Proof.
  rewrite run_submit_form_phases. unfold three_phases.
  destruct (split " " 1 (fullName form_data))
    as [|first_name [|last_name [|extra pieces]]] eqn:Hsplit;
    try discriminate.
  destruct (insert now (user_of first_name last_name form_data) db)
    as [e|[user_id db1]] eqn:Huser; [discriminate|].
  destruct (insert now (new_User_Tool user_id 1) db1)
    as [e|[user_tool_id db2]] eqn:Htool; [discriminate|].
  destruct (flush now (all_answers user_tool_id form_data) db2)
    as [e|[keys db3]] eqn:Hflush; [discriminate|].
  intros _.
  apply split_two_pieces in Hsplit. destruct Hsplit as [Hname Hfirst].
  pose proof (insert_user_no_nul _ _ _ _ _ _ Hname Huser) as Hnul.
  apply insert_user_inv in Huser.
  destruct Huser as (-> & _ & Hemail & ->).
  apply insert_user_tool_inv in Htool.
  destruct Htool as (-> & _ & _ & Hseeded & ->).
  apply flush_answers_refs in Hflush; [|apply all_answers_are_answers].
  rewrite (refs_are_seeds form_data db) in Hflush.
  - split; [exact (cut_contains _ _ _ Hname Hfirst)|].
    split; [exact Hnul|]. split; [exact Hemail|].
    split; [exact Hseeded|exact Hflush].
  - reflexivity.
  - unfold has_user_tool. cbn [store_user_tool user_tools].
    rewrite existsb_app. simpl. rewrite Z.eqb_refl.
    now rewrite orb_true_r.
Qed.

Lemma accepted_only_past_every_check_witness :
  has_email (seeded 63) (emailAddress jane_doe) = false
  /\ has_tool (seeded 63) 1 = true
  /\ questions_seeded (seeded 63) jane_doe = true.
Proof.
  destruct (accepted_only_past_every_check jane_doe 19000 (seeded 63)
              with_jane_doe success_message)
    as (_ & _ & Hemail & Htool & Hseeded).
  - run.
  - split; [exact Hemail|]. split; [exact Htool|exact Hseeded].
Defined.



(** X4.  A request never removes or changes a row, and never touches
    [payments], [diagnostic_tools] or [questions]: whatever its outcome,
    [users] and [user_tools] are the old tables with at most one row
    added, a link only together with its user, and [answers] is the old
    table with either nothing added or one row per submitted value. *)
Theorem tables_only_grow (form_data : FormData) (now : Date)
  (db : Database) :
  let db' := snd (run_submit_form form_data now db) in
  payments db' = payments db
  /\ diagnostic_tools db' = diagnostic_tools db
  /\ questions db' = questions db
  /\ exists (us : list User.t) (xs : list User_Tool.t)
            (rows : list Answer.t),
       users db' = users db ++ us
       /\ user_tools db' = user_tools db ++ xs
       /\ answers db' = answers db ++ rows
       /\ (length xs <= length us <= 1)%nat
       /\ (rows = []
           \/ length xs = 1%nat
              /\ length rows = length (submitted_values form_data)).
Proof.
  destruct (run_submit_form form_data now db) as [outcome db'] eqn:H.
  apply run_shapes in H. cbn [snd].
  destruct H as [[-> _]|(first_name & last_name & _ & _ & _ & H)].
  - conjuncts; try reflexivity.
    exists [], [], []. rewrite !app_nil_r.
    conjuncts; try reflexivity; try (simpl; lia). now left.
  - destruct H as [(kind & _ & ->)|[(kind & _ & ->)|[_ ->]]];
      (conjuncts; [reflexivity..|]).
    + exists [new_user form_data db first_name last_name], [], [].
      cbn [store_user users user_tools answers]. rewrite !app_nil_r.
      conjuncts; try reflexivity; try (simpl; lia). now left.
    + exists [new_user form_data db first_name last_name],
             [new_user_tool now db], [].
      cbn [store_user store_user_tool users user_tools answers].
      rewrite !app_nil_r.
      conjuncts; try reflexivity; try (simpl; lia). now left.
    + exists [new_user form_data db first_name last_name],
             [new_user_tool now db], (new_answers form_data db).
      cbn [after_submission users user_tools answers].
      conjuncts; try reflexivity; try (simpl; lia).
      right. split; [reflexivity|]. unfold new_answers.
      rewrite answer_rows_length by apply all_answers_are_answers.
      apply all_answers_length.
Qed.

(** X5.  Referential integrity is kept: when every foreign key of every
    row resolves before a request, it does after it, whatever the
    outcome; a partial write never leaves a row that points nowhere. *)
Theorem references_stay_resolved (form_data : FormData) (now : Date)
  (db db' : Database) (outcome : Exception + json) :
  references_resolve db = true ->
  run_submit_form form_data now db = (outcome, db') ->
  references_resolve db' = true.
Proof.
  intros Href H.
  apply (run_keeps (fun d => references_resolve d = true)
                   insert_keeps_references form_data now db db' outcome);
    assumption.
Qed.

Lemma references_stay_resolved_witness :
  references_resolve (snd (run_submit_form jane_doe_three 19000 (seeded 2)))
  = true.
Proof.
  apply (references_stay_resolved jane_doe_three 19000 (seeded 2) _
           (fst (run_submit_form jane_doe_three 19000 (seeded 2)))).
  - run.
  - run.
Defined.

(** X6.  Keys and e-mails stay unique: when no two rows of [users],
    [user_tools] or [answers] share a primary key and no two users share
    an e-mail before a request, the same holds after it, whatever the
    outcome. *)
Theorem keys_stay_unique (form_data : FormData) (now : Date)
  (db db' : Database) (outcome : Exception + json) :
  keys_unique db ->
  run_submit_form form_data now db = (outcome, db') ->
  keys_unique db'.
Proof.
  intros Hunique H.
  apply (run_keeps keys_unique insert_keeps_unique form_data now db db'
                   outcome); assumption.
Qed.

Lemma keys_stay_unique_witness :
  keys_unique (snd (run_submit_form jane_doe_ten 19000 (seeded 63))).
Proof.
  apply (keys_stay_unique jane_doe_ten 19000 (seeded 63) _
           (fst (run_submit_form jane_doe_ten 19000 (seeded 63)))).
  - unfold keys_unique. vm_compute. conjuncts; constructor.
  - run.
Defined.

(** X7.  The sequences stay ahead: when no key of [users], [user_tools]
    or [answers] is beyond the last value of its sequence before a
    request, none is after it; so the keys a later request draws are
    new. *)
Theorem sequences_stay_ahead (form_data : FormData) (now : Date)
  (db db' : Database) (outcome : Exception + json) :
  sequences_ahead db = true ->
  run_submit_form form_data now db = (outcome, db') ->
  sequences_ahead db' = true
  /\ has_user db' (users_user_id_seq db' + 1) = false
  /\ has_user_tool db' (user_tools_user_tool_id_seq db' + 1) = false
  /\ has_answer db' (answers_answer_id_seq db' + 1) = false.
Proof.
  intros Hahead H.
  assert (sequences_ahead db' = true) as Hahead'.
  { apply (run_keeps (fun d => sequences_ahead d = true)
                     insert_keeps_sequences form_data now db db' outcome);
      assumption. }
  split; [exact Hahead'|].
  unfold sequences_ahead in Hahead'.
  apply andb_true_iff in Hahead'. destruct Hahead' as [Hrest Hanswers].
  apply andb_true_iff in Hrest. destruct Hrest as [Husers Htools].
  conjuncts.
  - exact (key_beyond_sequence User.user_id _ _ Husers).
  - exact (key_beyond_sequence User_Tool.user_tool_id _ _ Htools).
  - exact (key_beyond_sequence Answer.answer_id _ _ Hanswers).
Qed.

Lemma sequences_stay_ahead_witness :
  sequences_ahead (snd (run_submit_form jane_doe_ten 19000 (seeded 63)))
  = true.
Proof.
  refine (proj1 (sequences_stay_ahead jane_doe_ten 19000 (seeded 63)
                   (snd (run_submit_form jane_doe_ten 19000 (seeded 63)))
                   (fst (run_submit_form jane_doe_ten 19000 (seeded 63)))
                   _ _)).
  - run.
  - run.
Defined.

Lemma email_stored (form_data : FormData) (db : Database)
  (first_name last_name : string) (more : list User.t) :
  existsb (fun u => String.eqb (User.email u) (emailAddress form_data))
          ((users db ++ [new_user form_data db first_name last_name])
           ++ more) = true.
Proof.
  rewrite !existsb_app. simpl. rewrite String.eqb_refl.
  now rewrite orb_true_r.
Qed.



(* ===================================================================== *)
(** * Two requests in a row *)
(* ===================================================================== *)

Lemma answer_rows_link (user_tool_id last : Z) (objs : list Transient) :
  (forall o, In o objs ->
             exists question_id answer_text,
               o = new_Answer user_tool_id question_id answer_text) ->
  Forall (fun a => Answer.user_tool_id a = user_tool_id)
         (answer_rows last objs).
Proof.
  revert last. induction objs as [|o rest IH]; intros last H; simpl.
  - constructor.
  - destruct (H o (or_introl eq_refl)) as (q & t & ->).
    constructor; [reflexivity|].
    apply IH. intros o' Ho'. apply H. now right.
Qed.

Lemma new_answers_link (form_data : FormData) (db : Database) :
  Forall (fun a => Answer.user_tool_id a
                   = user_tools_user_tool_id_seq db + 1)
         (new_answers form_data db).
Proof.
  unfold new_answers. apply answer_rows_link. intros o Ho.
  unfold all_answers in Ho. apply in_flat_map in Ho.
  destruct Ho as (step & _ & Ho). unfold step_answers in Ho.
  apply in_map_iff in Ho. destruct Ho as (item & <- & _).
  now eexists; eexists.
Qed.

Lemma new_answers_length (form_data : FormData) (db : Database) :
  length (new_answers form_data db) = length (submitted_values form_data).
Proof.
  unfold new_answers.
  rewrite answer_rows_length by apply all_answers_are_answers.
  apply all_answers_length.
Qed.

(** X9.  Submissions do not interfere.  When two submissions, one after
    the other, are both accepted, they came with different e-mails and
    each has rows of its own: the second user has the key after the
    first's, each link points to its user and the second link has the key
    after the first's, the answers of each submission all point to its
    link, one for each of its values; the rows of the first submission
    are left as they are. *)
Theorem accepted_submissions_are_independent (first second : FormData)
  (now later : Date) (db db1 db2 : Database) (r1 r2 : json) :
  run_submit_form first now db = (inr r1, db1) ->
  run_submit_form second later db1 = (inr r2, db2) ->
  emailAddress second <> emailAddress first
  /\ exists (u1 u2 : User.t) (x1 x2 : User_Tool.t)
            (rows1 rows2 : list Answer.t),
       users db2 = users db ++ [u1; u2]
       /\ user_tools db2 = user_tools db ++ [x1; x2]
       /\ answers db2 = answers db ++ rows1 ++ rows2
       /\ User.user_id u2 = User.user_id u1 + 1
       /\ User.email u1 = emailAddress first
       /\ User.email u2 = emailAddress second
       /\ User_Tool.user_id x1 = User.user_id u1
       /\ User_Tool.user_id x2 = User.user_id u2
       /\ User_Tool.user_tool_id x2 = User_Tool.user_tool_id x1 + 1
       /\ Forall (fun a => Answer.user_tool_id a
                           = User_Tool.user_tool_id x1) rows1
       /\ Forall (fun a => Answer.user_tool_id a
                           = User_Tool.user_tool_id x2) rows2
       /\ length rows1 = length (submitted_values first)
       /\ length rows2 = length (submitted_values second).
Proof.
  intros H1 H2.
  apply accepted_inv in H1.
  destruct H1 as (fn1 & ln1 & _ & _ & _ & _ & _ & ->).
  set (db1 := after_submission first now db fn1 ln1) in *.
  apply accepted_inv in H2.
  destruct H2 as (fn2 & ln2 & _ & _ & Hnew & _ & _ & ->).
  split.
  - intros Hsame. rewrite Hsame in Hnew.
    assert (has_email db1 (emailAddress first) = true) as Htaken.
    { unfold has_email, db1. cbn [after_submission users].
      rewrite <- (app_nil_r (users db ++ _)). apply email_stored. }
    congruence.
  - exists (new_user first db fn1 ln1), (new_user second db1 fn2 ln2),
           (new_user_tool now db), (new_user_tool later db1),
           (new_answers first db), (new_answers second db1).
    cbn [after_submission users user_tools answers].
    conjuncts; try reflexivity.
    + unfold db1. cbn [after_submission users]. now rewrite <- app_assoc.
    + unfold db1. cbn [after_submission user_tools].
      now rewrite <- app_assoc.
    + unfold db1. cbn [after_submission answers].
      now rewrite <- app_assoc.
    + apply new_answers_link.
    + apply (new_answers_link second db1).
    + apply new_answers_length.
    + apply new_answers_length.
Qed.

Lemma accepted_submissions_are_independent_witness :
  emailAddress john_roe <> emailAddress jane_doe.
Proof.
  refine (proj1 (accepted_submissions_are_independent jane_doe john_roe
                   19000 19001 (seeded 63) with_jane_doe
                   (snd (run_submit_form john_roe 19001 with_jane_doe))
                   success_message success_message _ _)).
  - run.
  - run.
Defined.

(* ===================================================================== *)
(** * The numbering, within nine values a step *)
(* ===================================================================== *)

Lemma step_ids (offset start : Z) (step_data : list Z) :
  NoDup (map (fun item : Z * Z => offset + fst item + 1)
             (enumerate_from start step_data))
  /\ forall q,
       In q (map (fun item : Z * Z => offset + fst item + 1)
                 (enumerate_from start step_data)) ->
       offset + start + 1 <= q
       <= offset + start + Z.of_nat (length step_data).
Proof.
  revert start. induction step_data as [|v rest IH]; intros start.
  - split; [constructor|intros q []].
  - destruct (IH (start + 1)) as [Hnodup Hbounds].
    cbn [enumerate_from map fst length]. rewrite Nat2Z.inj_succ. split.
    + constructor; [|exact Hnodup].
      intros Hin. apply Hbounds in Hin. lia.
    + intros q [<-|Hin]; [lia|]. apply Hbounds in Hin. lia.
Qed.

Lemma answer_rows_step_ids (last user_tool_id step : Z)
  (step_data : list Z) (more : list Transient) :
  map Answer.question_id
      (answer_rows last (step_answers user_tool_id step step_data ++ more))
  = map (fun item : Z * Z => (step - 2) * 9 + fst item + 1)
        (enumerate step_data)
    ++ map Answer.question_id
         (answer_rows (last + Z.of_nat (length step_data)) more).
Proof.
  unfold step_answers, enumerate. generalize 0 as start.
  revert last. induction step_data as [|v rest IH]; intros last start.
  - simpl. now rewrite Z.add_0_r.
  - cbn [enumerate_from map app answer_rows Answer.question_id fst snd].
    rewrite IH. cbn [map app length]. do 4 f_equal.
    rewrite Nat2Z.inj_succ. lia.
Qed.

Lemma all_answers_ids (last user_tool_id : Z) (form_data : FormData)
  (steps : list Z) :
  map Answer.question_id
      (answer_rows last
         (flat_map (fun step => step_answers user_tool_id step
                                  (stepData form_data step)) steps))
  = flat_map (fun step =>
                map (fun item : Z * Z => (step - 2) * 9 + fst item + 1)
                    (enumerate (stepData form_data step)))
             steps.
Proof.
  revert last. induction steps as [|step rest IH]; intros last;
    [reflexivity|].
  simpl. now rewrite answer_rows_step_ids, IH.
Qed.

(** Blocks of numbers that lie in intervals one after the other have no
    number in common. *)
Lemma NoDup_blocks (block : Z -> list Z) (lo hi : Z -> Z) (steps : list Z) :
  (forall s, In s steps -> NoDup (block s)) ->
  (forall s q, In s steps -> In q (block s) -> lo s <= q <= hi s) ->
  StronglySorted (fun s t => hi s < lo t) steps ->
  NoDup (flat_map block steps).
Proof.
  intros Hnodup Hbounds Hsorted.
  induction Hsorted as [|s rest Hrest IH Hs]; simpl; [constructor|].
  apply NoDup_app.
  - apply Hnodup. now left.
  - apply IH.
    + intros t Ht. apply Hnodup. now right.
    + intros t q Ht. apply Hbounds. now right.
  - intros q Hq Hin. apply in_flat_map in Hin.
    destruct Hin as (t & Ht & Hqt).
    rewrite Forall_forall in Hs. specialize (Hs t Ht).
    apply (Hbounds s q (or_introl eq_refl)) in Hq.
    apply (Hbounds t q (or_intror Ht)) in Hqt. lia.
Qed.

(** X10.  Within the layout the numbering assumes, nine questions a step,
    it is sound: when no step array has more than nine values, the Answer
    rows of an accepted submission are filed under pairwise different
    questions, all between 1 and 63. *)
Theorem question_ids_distinct_within_nine (form_data : FormData)
  (now : Date) (db db' : Database) (r : json) :
  at_most_nine form_data = true ->
  run_submit_form form_data now db = (inr r, db') ->
  exists rows : list Answer.t,
    answers db' = answers db ++ rows
    /\ NoDup (map Answer.question_id rows)
    /\ Forall (fun a => 1 <= Answer.question_id a <= 63) rows.
Proof.
  intros Hnine H. apply accepted_inv in H.
  destruct H as (first_name & last_name & _ & _ & _ & _ & _ & ->).
  exists (new_answers form_data db). split; [reflexivity|].
  unfold at_most_nine in Hnine. rewrite forallb_forall in Hnine.
  assert (forall s q,
             In s (range 2 9) ->
             In q (map (fun item : Z * Z => (s - 2) * 9 + fst item + 1)
                       (enumerate (stepData form_data s))) ->
             (s - 2) * 9 + 1 <= q <= (s - 2) * 9 + 9) as Hbounds.
  { intros s q Hs Hq. specialize (Hnine s Hs).
    apply Nat.leb_le in Hnine.
    apply (proj2 (step_ids ((s - 2) * 9) 0 (stepData form_data s))) in Hq.
    lia. }
  assert (map Answer.question_id (new_answers form_data db)
          = flat_map (fun step =>
                        map (fun item : Z * Z =>
                               (step - 2) * 9 + fst item + 1)
                            (enumerate (stepData form_data step)))
                     (range 2 9)) as Hids
    by apply all_answers_ids.
  split.
  - rewrite Hids.
    apply (NoDup_blocks _ (fun s => (s - 2) * 9 + 1)
                        (fun s => (s - 2) * 9 + 9)).
    + intros s _.
      exact (proj1 (step_ids ((s - 2) * 9) 0 (stepData form_data s))).
    + exact Hbounds.
    + unfold range. simpl.
      repeat (constructor; [|repeat (constructor; [lia|]); constructor]).
      constructor.
  - apply Forall_forall. intros a Ha.
    assert (In (Answer.question_id a)
               (map Answer.question_id (new_answers form_data db))) as Hin
      by now apply in_map.
    rewrite Hids in Hin. apply in_flat_map in Hin.
    destruct Hin as (s & Hs & Hq).
    pose proof (Hbounds s _ Hs Hq) as Hb.
    unfold range in Hs. simpl in Hs.
    destruct Hs as [<-|[<-|[<-|[<-|[<-|[<-|[<-|[]]]]]]]]; lia.
Qed.

Lemma question_ids_distinct_within_nine_witness :
  exists rows : list Answer.t,
    answers (snd (run_submit_form john_roe 19000 (seeded 63)))
    = answers (seeded 63) ++ rows
    /\ NoDup (map Answer.question_id rows)
    /\ Forall (fun a => 1 <= Answer.question_id a <= 63) rows.
Proof.
  apply (question_ids_distinct_within_nine john_roe 19000 (seeded 63) _
           success_message).
  - run.
  - run.
Defined.

(* ===================================================================== *)
(** * The texts of the answers *)
(* ===================================================================== *)

(** X11.  The texts stored are a faithful record of the submitted values:
    read back as decimal numbers, the [answer_text] columns of the rows an
    accepted submission adds are the submitted integers, in the order of
    submission, negative ones included. *)
Theorem answer_texts_read_back (form_data : FormData) (now : Date)
  (db db' : Database) (r : json) :
  run_submit_form form_data now db = (inr r, db') ->
  exists rows : list Answer.t,
    answers db' = answers db ++ rows
    /\ map (fun a => option_map Z.of_int
                       (NilZero.int_of_string (Answer.answer_text a)))
           rows
       = map Some (submitted_values form_data).
Proof.
  intros H. apply accepted_inv in H.
  destruct H as (first_name & last_name & _ & _ & _ & _ & _ & ->).
  exists (new_answers form_data db). split; [reflexivity|].
  rewrite <- (map_map Answer.answer_text
                (fun t => option_map Z.of_int (NilZero.int_of_string t))).
  unfold new_answers. rewrite all_answers_texts, map_map.
  apply map_ext. intros value. apply str_reads_back.
Qed.

Lemma answer_texts_read_back_witness :
  exists rows : list Answer.t,
    answers (snd (run_submit_form john_roe 19000 (seeded 63)))
    = answers (seeded 63) ++ rows
    /\ map (fun a => option_map Z.of_int
                       (NilZero.int_of_string (Answer.answer_text a)))
           rows
       = map Some [5; 4; 3; 2; 1].
Proof.
  apply (answer_texts_read_back john_roe 19000 (seeded 63) _
           success_message).
  run.
Defined.

(* ===================================================================== *)
(** * The cut of the name *)
(* ===================================================================== *)

Lemma join_cons_char (sep c : ascii) (piece : string)
  (pieces : list string) :
  join sep (String c piece :: pieces)
  = String c (join sep (piece :: pieces)).
Proof. destruct pieces; reflexivity. Qed.

(** X12.  [split] loses nothing and never cuts more than asked: joining
    the pieces with the separator gives the string back, there are at
    least one and at most [maxsplit + 1] pieces, and every piece but the
    last is free of the separator.  (For the call of the handler, with
    [maxsplit = 1]: at most two names, the first one without a space.) *)
Theorem split_joins_back (sep : ascii) (maxsplit : nat) (s : string) :
  join sep (split sep maxsplit s) = s
  /\ (1 <= length (split sep maxsplit s) <= maxsplit + 1)%nat
  /\ Forall (fun piece => contains sep piece = false)
            (removelast (split sep maxsplit s)).
Proof.
  revert maxsplit. induction s as [|c rest IH]; intros maxsplit.
  - simpl. split; [reflexivity|]. split; [lia|constructor].
  - destruct maxsplit as [|fewer].
    + simpl. split; [reflexivity|]. split; [lia|constructor].
    + cbn [split]. destruct (Ascii.eqb c sep) eqn:Hc.
      * apply Ascii.eqb_eq in Hc. subst c.
        destruct (IH fewer) as (Hjoin & Hlen & Hfree).
        destruct (split sep fewer rest) as [|piece pieces] eqn:Hs;
          [simpl in Hlen; lia|].
        split; [|split].
        -- change (join sep (EmptyString :: piece :: pieces))
             with (String sep (join sep (piece :: pieces))).
           now rewrite Hjoin.
        -- simpl in *. lia.
        -- cbn [removelast]. constructor; [reflexivity|exact Hfree].
      * destruct (IH (S fewer)) as (Hjoin & Hlen & Hfree).
        destruct (split sep (S fewer) rest) as [|piece pieces] eqn:Hs;
          [simpl in Hlen; lia|].
        split; [|split].
        -- rewrite join_cons_char. now rewrite Hjoin.
        -- simpl in *. lia.
        -- destruct pieces as [|next pieces]; [constructor|].
           cbn [removelast] in *. inversion Hfree; subst.
           constructor; [|assumption].
           simpl. now rewrite Hc.
Qed.

(* ===================================================================== *)
(** * A form without answers *)
(* ===================================================================== *)



